(** * Research Paper Summarizer: a shallow embedding of [app.py]

    The Python script fetches a PDF, concatenates the text of its pages,
    truncates it, builds a prompt from a template, posts it to a completion
    endpoint and renders the answer with Streamlit.

    Modelling choices.
    - A Python [str] is a list of Unicode code points ([list N]), so that
      [len], slicing and [strip] count characters the way Python does.
    - Exceptions are an error value; a small writer/error monad [M] threads
      the trace of observable events (HTTP calls, Streamlit calls) and the
      outcome of a computation.
    - Everything the script obtains from outside (the two HTTP calls, the PDF
      decoder, [str(e)], the template file, the API key) is a field of the
      record [World]; every theorem quantifies over it. *)

From Stdlib Require Import ZArith NArith List Ascii String Lia.
From Stdlib.Strings Require Import Byte.
From stdpp Require Import base list gmap strings pretty.

Set Warnings "-register-all".
Local Open Scope N_scope.

(** ** Python strings *)

Abbreviation pystr := (list N).

(** Code points of an ASCII literal. *)
Fixpoint str_of (s : string) : pystr :=
  match s with
  | EmptyString => []
  | String a r => N_of_ascii a :: str_of r
  end.

Definition newline : N := 10.
Definition lbrace : N := 123.
Definition rbrace : N := 125.
Definition lbracket : N := 91.
Definition rbracket : N := 93.
Definition bang : N := 33.
Definition colon : N := 58.
Definition dot : N := 46.
(** U+274C, the cross mark that opens the error string. *)
Definition cross_mark : N := 10060.
(** U+2665, the heart of the footer. *)
Definition heart : N := 9829.

(** [str(n)] for a Python [int]. *)
Definition py_str_int (n : Z) : pystr := str_of (pretty n).

(** [str.isspace] on one character (CPython's [_PyUnicode_IsWhitespace]). *)
Definition py_isspace (c : N) : bool :=
  ((9 <=? c) && (c <=? 13)) || ((28 <=? c) && (c <=? 32))
  || (c =? 133) || (c =? 160) || (c =? 5760)
  || ((8192 <=? c) && (c <=? 8202))
  || (c =? 8232) || (c =? 8233) || (c =? 8239) || (c =? 8287) || (c =? 12288).

Fixpoint py_lstrip (s : pystr) : pystr :=
  match s with
  | c :: r => if py_isspace c then py_lstrip r else s
  | [] => []
  end.

Definition py_rstrip (s : pystr) : pystr := rev (py_lstrip (rev s)).

(** [s.strip()] *)
Definition py_strip (s : pystr) : pystr := py_rstrip (py_lstrip s).

Fixpoint starts_with (p s : pystr) : bool :=
  match p, s with
  | [], _ => true
  | a :: p', b :: s' => (a =? b) && starts_with p' s'
  | _ :: _, [] => false
  end.

(** [sub in s] *)
Fixpoint py_in (sub s : pystr) : bool :=
  starts_with sub s ||
  match s with
  | [] => false
  | _ :: r => py_in sub r
  end.

Definition is_brace (c : N) : bool := (c =? lbrace) || (c =? rbrace).

Definition brace_free (s : pystr) : bool := forallb (fun c => negb (is_brace c)) s.

(** ** Exceptions and outcomes *)

Inductive pykey :=
| KStr (s : pystr)
| KInt (i : Z).

(** The [Exception] subclasses the script can meet.  [ExternalError] stands
    for whatever a library raises ([requests], [PyPDF2], [json], [open]). *)
Inductive exn :=
| KeyError (k : pykey)
| IndexError
| TypeError
| AttributeError
| ValueError
| ExternalError (cls msg : pystr).

Inductive result (A : Type) :=
| Return (a : A)
| Raise (e : exn).
Arguments Return {A} a.
Arguments Raise {A} e.

#[global] Instance result_ret : MRet result := fun A a => Return a.
#[global] Instance result_bind : MBind result := fun A B f r =>
  match r with
  | Return a => f a
  | Raise e => Raise e
  end.

(** ** JSON values, as [json.load] and [response.json()] build them *)

Inductive json :=
| JNull
| JBool (b : bool)
| JNum (mantissa exponent : Z)
| JStr (s : pystr)
| JArr (l : list json)
| JObj (o : gmap pystr json).

(** [l[i]] on a sequence, with Python's negative indices. *)
Definition py_index {A} (l : list A) (i : Z) : option A :=
  let n := Z.of_nat (length l) in
  let j := if (i <? 0)%Z then (i + n)%Z else i in
  if ((0 <=? j)%Z && (j <? n)%Z)%bool then l !! Z.to_nat j else None.

(** [v[k]] *)
Definition getitem (v : json) (k : pykey) : result json :=
  match v, k with
  | JObj o, KStr s =>
      match o !! s with
      | Some x => Return x
      | None => Raise (KeyError k)
      end
  | JObj _, KInt _ => Raise (KeyError k)
  | JArr l, KInt i =>
      match py_index l i with
      | Some x => Return x
      | None => Raise IndexError
      end
  | JStr s, KInt i =>
      match py_index s i with
      | Some c => Return (JStr [c])
      | None => Raise IndexError
      end
  | _, _ => Raise TypeError
  end.

(** [v.strip()]: only a [str] has the method. *)
Definition strip_method (v : json) : result pystr :=
  match v with
  | JStr s => Return (py_strip s)
  | _ => Raise AttributeError
  end.

(** ** The outside world *)

(** What [requests.post] hands back: whether [raise_for_status()] raises, and
    what [json()] gives. *)
Record Response := {
  raise_for_status : option exn;
  response_json : result json;
}.

Record World := {
  (** [str(e)] *)
  describe : exn -> pystr;
  (** [requests.get(url).content] *)
  requests_get : pystr -> result (list byte);
  (** [PdfReader(BytesIO(content)).pages], each page given by the outcome of
      its [extract_text()] *)
  PdfReader : list byte -> result (list (result pystr));
  (** [requests.post(url, headers=..., json=...)] *)
  requests_post : pystr -> gmap pystr pystr -> json -> result Response;
  (** [str.format] on what is left of a replacement field once its keyword,
      if it has one, was found: a positional index, attribute or item
      access, a conversion, a format spec *)
  format_other : pystr -> option N -> pystr -> gmap pystr pystr -> result pystr;
  (** [os.getenv("GROQ_API_KEY")] *)
  API_KEY : option pystr;
  (** the value loaded from [template.json] *)
  TEMPLATE : json;
}.

(** ** Loading the template (lines 25-26) *)

Record Disk := {
  (** [open('template.json')] and reading it *)
  open_template : result (list byte);
  (** [json.load] *)
  json_load : list byte -> result json;
}.

Definition load_template (d : Disk) : result json :=
  f ← open_template d; json_load d f.

(** ** [str.format] (lines 39-43)

    The scanner follows CPython's [MarkupIterator_next] and [parse_field]:
    literal text with the escapes [{{] and [}}], and replacement fields
    [{name}], [{name!c}], [{name:spec}], [{name!c:spec}], where a [[] inside
    the name skips to the next []] and braces nest inside a spec. *)

Inductive item :=
| Lit (c : N)
| Field (name : pystr) (conv : option N) (spec : pystr)
| Malformed.

Inductive fstate :=
| Text
| Name (acc : pystr)
| Bracket (acc : pystr)
| ConvChar (name : pystr)
| ConvEnd (name : pystr) (conv : N)
| Spec (name : pystr) (conv : option N) (depth : nat) (acc : pystr).

(** The accumulators hold the characters read so far, last one first. *)
Fixpoint parse (st : fstate) (s : pystr) : list item :=
  match s with
  | [] =>
      match st with
      | Text => []
      | _ => [Malformed]
      end
  | c :: r =>
      match st with
      | Text =>
          if c =? lbrace then
            match r with
            | [] => [Malformed]
            | c' :: r' =>
                if c' =? lbrace then Lit lbrace :: parse Text r'
                else parse (Name []) r
            end
          else if c =? rbrace then
            match r with
            | [] => [Malformed]
            | c' :: r' =>
                if c' =? rbrace then Lit rbrace :: parse Text r'
                else [Malformed]
            end
          else Lit c :: parse Text r
      | Name acc =>
          if c =? lbrace then [Malformed]
          else if c =? lbracket then parse (Bracket (c :: acc)) r
          else if c =? rbrace then Field (rev acc) None [] :: parse Text r
          else if c =? colon then parse (Spec (rev acc) None 0 []) r
          else if c =? bang then parse (ConvChar (rev acc)) r
          else parse (Name (c :: acc)) r
      | Bracket acc =>
          if c =? rbracket then parse (Name (c :: acc)) r
          else parse (Bracket (c :: acc)) r
      | ConvChar name => parse (ConvEnd name c) r
      | ConvEnd name conv =>
          if c =? rbrace then Field name (Some conv) [] :: parse Text r
          else if c =? colon then parse (Spec name (Some conv) 0 []) r
          else [Malformed]
      | Spec name conv depth acc =>
          if c =? lbrace then parse (Spec name conv (S depth) (c :: acc)) r
          else if c =? rbrace then
            match depth with
            | O => Field name conv (rev acc) :: parse Text r
            | S d => parse (Spec name conv d (c :: acc)) r
            end
          else parse (Spec name conv depth (c :: acc)) r
      end
  end.

Definition is_ascii_digit (c : N) : bool := (48 <=? c) && (c <=? 57).

(** The argument name of a field: the field name up to its first [.] or [[]
    (CPython's [field_name_split]); what follows are accessors. *)
Fixpoint arg_name (name : pystr) : pystr :=
  match name with
  | [] => []
  | c :: r => if (c =? dot) || (c =? lbracket) then [] else c :: arg_name r
  end.

(** CPython reads the argument name as a keyword unless it is empty or a
    number ([get_integer]).  One that starts with an ASCII character other
    than a digit is a keyword for sure; the others (empty, starting with a
    digit, or with a character whose digit value is a matter of the Unicode
    tables) are left to [format_other]. *)
Definition keyword_name (arg : pystr) : bool :=
  match arg with
  | c :: _ => (c <? 128) && negb (is_ascii_digit c)
  | [] => false
  end.

(** A field name that is a keyword and nothing else: no accessor. *)
Definition plain_key (name : pystr) : bool :=
  keyword_name (arg_name name) && bool_decide (arg_name name = name).

(** The value of one replacement field ([get_field_object], then conversion
    and format spec).  The keyword is looked up first, and a keyword that
    was not passed is a [KeyError] whatever accessor, conversion or spec
    comes with it.  The three keyword arguments of the script are all [str],
    and a [str] with no accessor, no conversion and an empty spec is
    formatted as itself. *)
Definition render_field (W : World) (kwargs : gmap pystr pystr)
    (name : pystr) (conv : option N) (spec : pystr) : result pystr :=
  let arg := arg_name name in
  if keyword_name arg then
    match kwargs !! arg with
    | None => Raise (KeyError (KStr arg))
    | Some v =>
        match conv, spec with
        | None, [] =>
            if bool_decide (arg = name) then Return v
            else format_other W name conv spec kwargs
        | _, _ => format_other W name conv spec kwargs
        end
    end
  else format_other W name conv spec kwargs.

(** Items are produced left to right, so the leftmost failure is raised. *)
Fixpoint render (W : World) (kwargs : gmap pystr pystr) (items : list item)
    : result pystr :=
  match items with
  | [] => Return []
  | Lit c :: r => s ← render W kwargs r; Return (c :: s)
  | Field name conv spec :: r =>
      v ← render_field W kwargs name conv spec;
      s ← render W kwargs r;
      Return (v ++ s)
  | Malformed :: _ => Raise ValueError
  end.

(** [fmt.format(audience=..., length=..., text=...)] *)
Definition str_format (W : World) (fmt : pystr) (kwargs : gmap pystr pystr)
    : result pystr :=
  render W kwargs (parse Text fmt).

(** [v.format(...)]: only a [str] has the method. *)
Definition format_method (W : World) (v : json) (kwargs : gmap pystr pystr)
    : result pystr :=
  match v with
  | JStr fmt => str_format W fmt kwargs
  | _ => Raise AttributeError
  end.

(** ** Observable events and the monad of the script

    [Invoke_extract] and [Invoke_generate] record the entry into the two
    functions; the other events are the calls the script makes to [requests]
    and to Streamlit. *)

Inductive event :=
| Invoke_extract (url : pystr)
| Invoke_generate (text audience : pystr) (length : Z)
| HttpGet (url : pystr)
| HttpPost (url : pystr) (headers : gmap pystr pystr) (body : json)
| StWarning (msg : pystr)
| StError (msg : pystr)
| StSuccess (msg : pystr)
| StSubheader (msg : pystr)
| StMarkdown (body : pystr) (unsafe_allow_html : bool)
| SpinnerEnter (msg : pystr)
| SpinnerExit.

(** [Stop] is [st.stop()]: the script run ends there, and no
    [except Exception] sees it. *)
Inductive outcome (A : Type) :=
| Done (r : result A)
| Stop.
Arguments Done {A} r.
Arguments Stop {A}.

Definition M (A : Type) : Type := list event * outcome A.

Definition trace_of {A} (m : M A) : list event := fst m.
Definition outcome_of {A} (m : M A) : outcome A := snd m.

#[global] Instance M_ret : MRet M := fun A a => ([], Done (Return a)).
#[global] Instance M_bind : MBind M := fun A B f m =>
  match m with
  | (t, Done (Return a)) => let '(t', o) := f a in (t ++ t', o)
  | (t, Done (Raise e)) => (t, Done (Raise e))
  | (t, Stop) => (t, Stop)
  end.

Definition log (ev : event) : M unit := ([ev], Done (Return tt)).
Definition lift {A} (r : result A) : M A := ([], Done r).
Definition st_stop {A} : M A := ([], Stop).

(** [try: body  except Exception as e: handler e] *)
Definition try_except {A} (body : M A) (handler : exn -> M A) : M A :=
  match body with
  | (t, Done (Raise e)) => let '(t', o) := handler e in (t ++ t', o)
  | _ => body
  end.

(** [with st.spinner(msg): body]: the spinner is left however the body ends. *)
Definition with_spinner {A} (msg : pystr) (body : M A) : M A :=
  let '(t, o) := body in (SpinnerEnter msg :: t ++ [SpinnerExit], o).

(** ** Constants of the script (lines 20-22) *)

Definition GROQ_URL : pystr := str_of "https://api.groq.com/openai/v1/chat/completions".
Definition MODEL : pystr := str_of "llama3-70b-8192".

(** [f"{v}"] for a value that is a [str] or [None]. *)
Definition py_str_opt (v : option pystr) : pystr :=
  match v with
  | Some s => s
  | None => str_of "None"
  end.

(** ** [extract_text_from_pdf] (lines 28-35) *)

(** The [for] loop of lines 33-34, from the accumulator [text]. *)
Fixpoint page_loop (pages : list (result pystr)) (text : pystr) : result pystr :=
  match pages with
  | [] => Return text
  | page :: rest =>
      match page with
      | Return t => page_loop rest (text ++ (t ++ [newline]))
      | Raise e => Raise e
      end
  end.

(** The text before the slice of line 35. *)
Definition full_text (W : World) (url : pystr) : M pystr :=
  log (Invoke_extract url);;
  log (HttpGet url);;
  content ← lift (requests_get W url);
  pages ← lift (PdfReader W content);
  lift (page_loop pages []).

Definition extract_text_from_pdf (W : World) (url : pystr) : M pystr :=
  text ← full_text W url;
  mret (take 3000 text).

(** ** [generate_summary] (lines 37-66) *)

Definition error_prefix : pystr := cross_mark :: str_of " Error: ".

(** The keyword arguments of line 39-43. *)
Definition prompt_kwargs (text audience : pystr) (length : Z) : gmap pystr pystr :=
  {[ str_of "audience" := audience;
     str_of "length" := py_str_int length ++ str_of " sentences";
     str_of "text" := text ]}.

(** Lines 39-43. *)
Definition build_prompt (W : World) (text audience : pystr) (length : Z)
    : result pystr :=
  fmt ← getitem (TEMPLATE W) (KStr (str_of "prompt_template"));
  format_method W fmt (prompt_kwargs text audience length).

(** Lines 45-48. *)
Definition request_headers (W : World) : gmap pystr pystr :=
  {[ str_of "Authorization" := str_of "Bearer " ++ py_str_opt (API_KEY W);
     str_of "Content-Type" := str_of "application/json" ]}.

(** Lines 50-58. *)
Definition request_data (W : World) (prompt : pystr) : result json :=
  sys ← getitem (TEMPLATE W) (KStr (str_of "system_prompt"));
  Return (JObj
    {[ str_of "model" := JStr MODEL;
       str_of "messages" := JArr
         [ JObj {[ str_of "role" := JStr (str_of "system");
                   str_of "content" := sys ]};
           JObj {[ str_of "role" := JStr (str_of "user");
                   str_of "content" := JStr prompt ]} ];
       str_of "temperature" := JNum 7 (-1);
       str_of "top_p" := JNum 9 (-1) ]}).

(** Line 63, the path [["choices"][0]["message"]["content"]]. *)
Definition completion_content (body : json) : result json :=
  c ← getitem body (KStr (str_of "choices"));
  c ← getitem c (KInt 0);
  c ← getitem c (KStr (str_of "message"));
  getitem c (KStr (str_of "content")).

(** [response.raise_for_status()] *)
Definition check_status (r : Response) : result unit :=
  match raise_for_status r with
  | Some e => Raise e
  | None => Return tt
  end.

(** Lines 61-64, the body of the [try]. *)
Definition completion_call (W : World) (headers : gmap pystr pystr) (data : json)
    : M pystr :=
  log (HttpPost GROQ_URL headers data);;
  response ← lift (requests_post W GROQ_URL headers data);
  lift (check_status response);;
  body ← lift (response_json response);
  summary ← lift (completion_content body);
  lift (strip_method summary).

(** The same body as a computation on the answer of the endpoint, without
    the trace. *)
Definition completion_result (W : World) (headers : gmap pystr pystr) (data : json)
    : result pystr :=
  response ← requests_post W GROQ_URL headers data;
  check_status response;;
  body ← response_json response;
  summary ← completion_content body;
  strip_method summary.

Definition generate_summary (W : World) (text audience : pystr) (length : Z)
    : M pystr :=
  log (Invoke_generate text audience length);;
  prompt ← lift (build_prompt W text audience length);
  let headers := request_headers W in
  data ← lift (request_data W prompt);
  try_except (completion_call W headers data)
    (fun e => mret (error_prefix ++ describe W e)).

(** ** The page (lines 116-157) *)

Inductive AudienceLabel :=
| BeginnerFriendly
| Technical
| Concise
| Detailed.

(** The options of the select box (line 124). *)
Definition label_str (a : AudienceLabel) : pystr :=
  match a with
  | BeginnerFriendly => str_of "Beginner-Friendly"
  | Technical => str_of "Technical"
  | Concise => str_of "Concise"
  | Detailed => str_of "Detailed"
  end.

Definition warning_msg : pystr := str_of "Please enter a PDF URL".
Definition extract_failed_msg : pystr := str_of "Failed to extract text from PDF".

Definition summary_html (summary : pystr) : pystr :=
  str_of "<div style='background:rgba(255,255,255,0.1); padding:20px; border-radius:10px;'>"
  ++ summary ++ str_of "</div>".

(** Lines 137-150, the body of the [try] of the button handler. *)
Definition run_pipeline (W : World) (url : pystr) (audience : AudienceLabel)
    (length : Z) : M unit :=
  text ← extract_text_from_pdf W url;
  match text with
  | [] => log (StError extract_failed_msg);; st_stop
  | _ :: _ => mret tt
  end;;
  summary ← with_spinner (str_of "Generating summary (this may take 20-30 seconds)...")
    (generate_summary W text (label_str audience) length);
  log (StSuccess (str_of "Summary Generated!"));;
  log (StSubheader (str_of "Research Summary"));;
  log (StMarkdown (summary_html summary) true).

(** Lines 132-153, what runs when the button was pressed. *)
Definition button_handler (W : World) (url : pystr) (audience : AudienceLabel)
    (length : Z) : M unit :=
  match url with
  | [] => log (StWarning warning_msg)
  | _ :: _ =>
      with_spinner (str_of "Downloading and processing paper...")
        (try_except (run_pipeline W url audience length)
           (fun e => log (StError (str_of "Error: " ++ describe W e))))
  end.

(** Lines 131-157: the button, then the footer.  A run that gets to the end
    of the script leaves the page waiting for the next action. *)
Definition script (W : World) (clicked : bool) (url : pystr)
    (audience : AudienceLabel) (length : Z) : M unit :=
  (if clicked then button_handler W url audience length else mret tt);;
  log (StMarkdown (str_of "---") false);;
  log (StMarkdown (str_of "Built with " ++ heart :: str_of " using Llama3 70B via Groq API") false).

Definition is_network (ev : event) : bool :=
  match ev with
  | HttpGet _ | HttpPost _ _ _ => true
  | _ => false
  end.

Definition is_invocation (ev : event) : bool :=
  match ev with
  | Invoke_extract _ | Invoke_generate _ _ _ => true
  | _ => false
  end.

(** ** Templates that format without failure *)

Definition supplied (name : pystr) : bool :=
  bool_decide (name = str_of "audience")
  || bool_decide (name = str_of "length")
  || bool_decide (name = str_of "text").

(** A literal character, or a placeholder [{audience}], [{length}] or
    [{text}] with no conversion and no format spec. *)
Definition item_ok (i : item) : bool :=
  match i with
  | Lit _ => true
  | Field name None [] => supplied name
  | _ => false
  end.

Definition is_field (name : pystr) (i : item) : bool :=
  match i with
  | Field n None [] => bool_decide (n = name)
  | _ => false
  end.

(** The format string parses, and its placeholders are exactly
    [{audience}], [{length}] and [{text}]. *)
Definition exact_placeholders (fmt : pystr) : bool :=
  let items := parse Text fmt in
  forallb item_ok items
  && existsb (is_field (str_of "audience")) items
  && existsb (is_field (str_of "length")) items
  && existsb (is_field (str_of "text")) items.


(** A replacement field whose keyword the script does not pass, whatever
    accessor, conversion or format spec follows the keyword. *)
Definition names_unsupplied (i : item) : bool :=
  match i with
  | Field name _ _ =>
      keyword_name (arg_name name) && negb (supplied (arg_name name))
  | _ => false
  end.

(** The format string names a keyword that the script does not pass. *)
Definition references_unsupplied (fmt : pystr) : bool :=
  existsb names_unsupplied (parse Text fmt).



(** Modelled from the spec: the content of [template.json], which the script
    loads and the repository leaves out.  The configuration file is "a
    structured record with exactly two string fields, system_prompt and
    prompt_template; the latter must contain substitution placeholders named
    audience, length, and text": two string fields, the second one a format
    string whose placeholders are among these three. *)
Definition valid_template (T : json) : bool :=
  match T with
  | JObj o =>
      match o !! str_of "system_prompt", o !! str_of "prompt_template" with
      | Some (JStr _), Some (JStr fmt) => forallb item_ok (parse Text fmt)
      | _, _ => false
      end
  | _ => false
  end.

(** ** Sample worlds *)

Module Sample.

Definition quote : N := 39.

(** A rendering of exceptions, close to Python's for the cases shown. *)
Definition explain (e : exn) : pystr :=
  match e with
  | KeyError (KStr s) => quote :: s ++ [quote]
  | KeyError (KInt i) => py_str_int i
  | IndexError => str_of "list index out of range"
  | TypeError => str_of "object is not subscriptable"
  | AttributeError => str_of "object has no attribute"
  | ValueError => str_of "invalid format string"
  | ExternalError _ msg => msg
  end.

Definition template : json :=
  JObj {[ str_of "system_prompt" := JStr (str_of "You are a research assistant.");
          str_of "prompt_template" :=
            JStr (str_of "Summarize for a {audience} reader in {length}: {text}") ]}.

(** A template that names a keyword the script never passes. *)
Definition template_topic : json :=
  JObj {[ str_of "system_prompt" := JStr (str_of "You are a research assistant.");
          str_of "prompt_template" :=
            JStr (str_of "Summarize {text} on {topic} for {audience} in {length}") ]}.

Definition stub_body : json :=
  JObj {[ str_of "choices" :=
    JArr [ JObj {[ str_of "message" :=
      JObj {[ str_of "content" := JStr (str_of " Hello world. ") ]} ]} ] ]}.

Definition stub_response : Response :=
  {| raise_for_status := None; response_json := Return stub_body |}.

Definition http_500 : exn :=
  ExternalError (str_of "HTTPError") (str_of "500 Server Error").

Definition failing_response : Response :=
  {| raise_for_status := Some http_500; response_json := Return stub_body |}.

Definition world (T : json) (pages : list (result pystr)) (r : Response) : World :=
  {| describe := explain;
     requests_get := fun _ => Return [];
     PdfReader := fun _ => Return pages;
     requests_post := fun _ _ _ => Return r;
     format_other := fun _ _ _ _ => Raise ValueError;
     API_KEY := Some (str_of "secret");
     TEMPLATE := T |}.

Definition two_pages : list (result pystr) :=
  [Return (str_of "Page one"); Return (str_of "Page two")].

Definition blank_pages (n : nat) : list (result pystr) := replicate n (Return []).

(** One page of 3500 letters. *)
Definition long_text : pystr := replicate 3500 97.
Definition long_page : list (result pystr) := [Return long_text].

Definition url : pystr := str_of "https://arxiv.org/pdf/1.pdf".

(** A file that holds the JSON text of an empty object. *)
Definition disk_empty_object : Disk :=
  {| open_template := Return [x7b; x7d];
     json_load := fun _ => Return (JObj ∅) |}.

End Sample.

(** ** Measures on traces *)

(** The HTTP calls of a trace, in order. *)
Definition network_calls (t : list event) : list event := List.filter is_network t.

Definition is_spinner_enter (ev : event) : bool :=
  match ev with
  | SpinnerEnter _ => true
  | _ => false
  end.

Definition is_spinner_exit (ev : event) : bool :=
  match ev with
  | SpinnerExit => true
  | _ => false
  end.

Definition is_markdown (ev : event) : bool :=
  match ev with
  | StMarkdown _ _ => true
  | _ => false
  end.

Definition count_events (p : event -> bool) (t : list event) : nat :=
  length (List.filter p t).

(** The two calls of lines 156-157. *)
Definition footer : list event :=
  [StMarkdown (str_of "---") false;
   StMarkdown (str_of "Built with " ++ heart :: str_of " using Llama3 70B via Groq API")
     false].

(** The texts of the pages, each followed by a newline. *)
Definition pages_text (texts : list pystr) : pystr :=
  concat (map (fun t => t ++ [newline]) texts).

(** A literal text written for [str.format]: every brace doubled. *)
Definition escape_braces (s : pystr) : pystr :=
  flat_map (fun c => if is_brace c then [c; c] else [c]) s.

(** A character with no role in a replacement field: none of the braces,
    [[], [:] and [!]. *)
Definition plain_char (c : N) : bool :=
  negb (c =? lbrace) && negb (c =? rbrace) && negb (c =? lbracket)
  && negb (c =? colon) && negb (c =? bang).

(** ** Further sample worlds *)

Module Scenario.

Definition refused : exn :=
  ExternalError (str_of "ConnectionError") (str_of "connection refused").

(** No network: both HTTP calls raise. *)
Definition offline (T : json) : World :=
  {| describe := Sample.explain;
     requests_get := fun _ => Raise refused;
     PdfReader := fun _ => Return [];
     requests_post := fun _ _ _ => Raise refused;
     format_other := fun _ _ _ _ => Raise ValueError;
     API_KEY := None;
     TEMPLATE := T |}.

(** The PDF is served, the completion endpoint is down. *)
Definition endpoint_down (T : json) (pages : list (result pystr)) : World :=
  {| describe := Sample.explain;
     requests_get := fun _ => Return [];
     PdfReader := fun _ => Return pages;
     requests_post := fun _ _ _ => Raise refused;
     format_other := fun _ _ _ _ => Raise ValueError;
     API_KEY := None;
     TEMPLATE := T |}.

(** The endpoint answers 200 with the given body. *)
Definition answering (T : json) (pages : list (result pystr)) (body : json) : World :=
  Sample.world T pages {| raise_for_status := None; response_json := Return body |}.

Definition body_with_content (v : json) : json :=
  JObj {[ str_of "choices" :=
    JArr [ JObj {[ str_of "message" := JObj {[ str_of "content" := v ]} ]} ] ]}.

Definition unreadable : exn :=
  ExternalError (str_of "PdfReadError") (str_of "cannot read page").

(** The second page cannot be read. *)
Definition damaged_pages : list (result pystr) :=
  [Return (str_of "Page one"); Raise unreadable; Return (str_of "Page three")].

Definition template_of (fmt : pystr) : json :=
  JObj {[ str_of "system_prompt" := JStr (str_of "You are a research assistant.");
          str_of "prompt_template" := JStr fmt ]}.

(** A file with the format string only. *)
Definition template_no_system : json :=
  JObj {[ str_of "prompt_template" := JStr (str_of "Summarize {text}") ]}.

(** The keyword [topic] with an accessor, a conversion and a format spec. *)
Definition format_with_accessor : pystr :=
  str_of "Summarize {text} on {topic.name!r:>10} for {audience}".

(** Two completions; the script reads the first. *)
Definition two_choices_body : json :=
  JObj {[ str_of "choices" :=
    JArr [ JObj {[ str_of "message" :=
             JObj {[ str_of "content" := JStr (str_of " Hello world. ") ]} ]};
           JObj {[ str_of "message" :=
             JObj {[ str_of "content" := JStr (str_of "Second choice") ]} ]} ] ]}.

End Scenario.

(** * Properties *)

Arguments str_of : simpl never.

(** ** Strings *)

Lemma starts_with_app (p r : pystr) : starts_with p (p ++ r) = true.
Proof.
  induction p as [|a p IH]; simpl; [reflexivity|].
  rewrite N.eqb_refl. exact IH.
Qed.

Lemma py_in_unfold (sub s : pystr) :
  py_in sub s = starts_with sub s || match s with [] => false | _ :: r => py_in sub r end.
Proof. destruct s; reflexivity. Qed.

Lemma py_in_app (sub pre post : pystr) : py_in sub (pre ++ sub ++ post) = true.
Proof.
  induction pre as [|a pre IH].
  - simpl app. rewrite py_in_unfold, starts_with_app. reflexivity.
  - simpl app. rewrite py_in_unfold, IH. apply orb_true_r.
Qed.



Lemma py_lstrip_split (s : pystr) :
  exists lead, s = lead ++ py_lstrip s /\ forallb py_isspace lead = true.
Proof.
  induction s as [|c s [lead [Heq Hsp]]].
  - exists []. split; reflexivity.
  - simpl. destruct (py_isspace c) eqn:Hc.
    + exists (c :: lead). split.
      * simpl. f_equal. exact Heq.
      * simpl. rewrite Hc. exact Hsp.
    + exists []. split; reflexivity.
Qed.

Lemma py_lstrip_head (s : pystr) c :
  head (py_lstrip s) = Some c -> py_isspace c = false.
Proof.
  induction s as [|a s IH]; simpl; [discriminate|].
  destruct (py_isspace a) eqn:Ha; [exact IH|].
  simpl. intros [= <-]. exact Ha.
Qed.

Lemma py_rstrip_split (s : pystr) :
  exists trail, s = py_rstrip s ++ trail /\ forallb py_isspace trail = true.
Proof.
  unfold py_rstrip.
  destruct (py_lstrip_split (rev s)) as [lead [Heq Hsp]].
  exists (rev lead). split.
  - rewrite <- rev_app_distr, <- Heq, rev_involutive. reflexivity.
  - rewrite forallb_forall in *. intros x Hx. apply Hsp.
    apply in_rev. exact Hx.
Qed.

Lemma last_rev_head {A} (l : list A) : last (rev l) = head l.
Proof. destruct l as [|a l]; [reflexivity|]. simpl rev. apply last_snoc. Qed.

Lemma py_rstrip_last (s : pystr) c :
  last (py_rstrip s) = Some c -> py_isspace c = false.
Proof.
  unfold py_rstrip. rewrite last_rev_head. apply py_lstrip_head.
Qed.

Lemma py_rstrip_head (s : pystr) c :
  (forall a, head s = Some a -> py_isspace a = false) ->
  head (py_rstrip s) = Some c -> py_isspace c = false.
Proof.
  intros Hs Hc.
  destruct (py_rstrip_split s) as [trail [Heq _]].
  apply Hs. rewrite Heq.
  destruct (py_rstrip s); [discriminate|]. exact Hc.
Qed.

(** [strip] removes a run of whitespace at each end and nothing else, and
    what is left neither starts nor ends with whitespace. *)
Lemma py_strip_spec (s : pystr) :
  exists lead trail,
    s = lead ++ py_strip s ++ trail
    /\ forallb py_isspace lead = true
    /\ forallb py_isspace trail = true
    /\ (forall c, head (py_strip s) = Some c -> py_isspace c = false)
    /\ (forall c, last (py_strip s) = Some c -> py_isspace c = false).
Proof.
  destruct (py_lstrip_split s) as [lead [Hl Hlsp]].
  destruct (py_rstrip_split (py_lstrip s)) as [trail [Hr Hrsp]].
  exists lead, trail. unfold py_strip. repeat split; try assumption.
  - rewrite <- Hr. exact Hl.
  - intros c. apply py_rstrip_head. intros a. apply py_lstrip_head.
  - intros c. apply py_rstrip_last.
Qed.

(** ** The keyword arguments *)

Lemma supplied_cases (name : pystr) :
  supplied name = true ->
  name = str_of "audience" \/ name = str_of "length" \/ name = str_of "text".
Proof.
  unfold supplied. intros H.
  apply orb_true_iff in H as [H|H]; [apply orb_true_iff in H as [H|H]|];
    apply bool_decide_eq_true in H; auto.
Qed.

Lemma supplied_plain (name : pystr) : supplied name = true -> plain_key name = true.
Proof.
  intros H. destruct (supplied_cases _ H) as [->|[->| ->]]; reflexivity.
Qed.

Lemma kwargs_audience text audience n :
  prompt_kwargs text audience n !! str_of "audience" = Some audience.
Proof. unfold prompt_kwargs. apply lookup_insert_eq. Qed.

Lemma kwargs_length text audience n :
  prompt_kwargs text audience n !! str_of "length"
  = Some (py_str_int n ++ str_of " sentences").
Proof.
  unfold prompt_kwargs. rewrite lookup_insert_ne by discriminate.
  apply lookup_insert_eq.
Qed.

Lemma kwargs_text text audience n :
  prompt_kwargs text audience n !! str_of "text" = Some text.
Proof.
  unfold prompt_kwargs. do 2 (rewrite lookup_insert_ne by discriminate).
  apply lookup_singleton_eq.
Qed.

Lemma kwargs_supplied text audience n name :
  supplied name = true -> is_Some (prompt_kwargs text audience n !! name).
Proof.
  intros H. destruct (supplied_cases _ H) as [->|[->| ->]].
  - rewrite kwargs_audience. eauto.
  - rewrite kwargs_length. eauto.
  - rewrite kwargs_text. eauto.
Qed.

Lemma kwargs_unsupplied text audience n name :
  supplied name = false -> prompt_kwargs text audience n !! name = None.
Proof.
  unfold supplied. intros H.
  apply orb_false_iff in H as [H H3]. apply orb_false_iff in H as [H1 H2].
  apply bool_decide_eq_false in H1, H2, H3.
  unfold prompt_kwargs.
  rewrite !lookup_insert_ne by congruence.
  apply lookup_singleton_ne. congruence.
Qed.


(** ** Rendering a parsed format string *)

Arguments render_field : simpl never.

Section Render.
Context (W : World) (kw : gmap pystr pystr).

Lemma plain_key_arg name :
  plain_key name = true -> keyword_name (arg_name name) = true /\ arg_name name = name.
Proof.
  unfold plain_key. intros H. apply andb_true_iff in H as [Hk Ha].
  apply bool_decide_eq_true in Ha. auto.
Qed.

Lemma render_field_plain name v :
  plain_key name = true -> kw !! name = Some v ->
  render_field W kw name None [] = Return v.
Proof.
  intros Hp Hk. destruct (plain_key_arg _ Hp) as [Hkey Harg].
  unfold render_field. rewrite Harg in *. rewrite Hkey, Hk.
  rewrite bool_decide_eq_true_2 by reflexivity. reflexivity.
Qed.


(** The keyword is looked up before anything else of the field. *)
Lemma render_field_unsupplied name conv spec :
  keyword_name (arg_name name) = true -> kw !! arg_name name = None ->
  render_field W kw name conv spec = Raise (KeyError (KStr (arg_name name))).
Proof. intros Hkey Hk. unfold render_field. rewrite Hkey, Hk. reflexivity. Qed.

Lemma item_ok_field i :
  item_ok i = true ->
  (exists c, i = Lit c) \/ (exists name, i = Field name None [] /\ supplied name = true).
Proof.
  destruct i as [c|name [conv|] [|s spec]|]; simpl; try discriminate; eauto.
Qed.

(** A format string over supplied keywords always renders. *)
Lemma render_ok items :
  (forall name, supplied name = true -> is_Some (kw !! name)) ->
  forallb item_ok items = true ->
  exists out, render W kw items = Return out.
Proof.
  intros Hkw. induction items as [|i items IH]; intros Hok.
  - exists []. reflexivity.
  - simpl in Hok. apply andb_true_iff in Hok as [Hi Hok].
    destruct (IH Hok) as [out Hout].
    destruct (item_ok_field _ Hi) as [[c ->]|[name [-> Hs]]].
    + exists (c :: out). simpl. rewrite Hout. reflexivity.
    + destruct (Hkw _ Hs) as [v Hv]. exists (v ++ out). simpl render.
      rewrite (render_field_plain _ _ (supplied_plain _ Hs) Hv), Hout.
      reflexivity.
Qed.

(** The value of a keyword appears in the output wherever its placeholder
    stands in the format string. *)
Lemma render_contains items name v : forall out,
  render W kw items = Return out ->
  existsb (is_field name) items = true ->
  plain_key name = true -> kw !! name = Some v ->
  exists pre post, out = pre ++ v ++ post.
Proof.
  intros out Hr Hex Hp Hk. revert out Hr Hex.
  induction items as [|i items IH]; intros out Hr Hex; [discriminate|].
  simpl in Hex. destruct (is_field name i) eqn:Hi.
  - destruct i as [c|n [conv|] [|s spec]|]; simpl in Hi; try discriminate.
    apply bool_decide_eq_true in Hi as ->. simpl render in Hr.
    rewrite (render_field_plain _ _ Hp Hk) in Hr.
    destruct (render W kw items) as [rest|e]; simpl in Hr; [|discriminate].
    injection Hr as <-. exists [], rest. reflexivity.
  - simpl in Hex. destruct i as [c|n conv spec|]; simpl render in Hr.
    + destruct (render W kw items) as [rest|e]; simpl in Hr; [|discriminate].
      injection Hr as <-. destruct (IH rest eq_refl Hex) as [pre [post ->]].
      exists (c :: pre), post. reflexivity.
    + destruct (render_field W kw n conv spec) as [x|e]; simpl in Hr; [|discriminate].
      destruct (render W kw items) as [rest|e]; simpl in Hr; [|discriminate].
      injection Hr as <-. destruct (IH rest eq_refl Hex) as [pre [post ->]].
      exists (x ++ pre), post. rewrite <- app_assoc. reflexivity.
    + discriminate.
Qed.


(** A placeholder for a keyword that is not passed makes [format] raise. *)
Lemma render_unsupplied items :
  (forall name, supplied name = false -> kw !! name = None) ->
  existsb names_unsupplied items = true ->
  exists e, render W kw items = Raise e.
Proof.
  intros Hkw. induction items as [|i items IH]; intros Hex; [discriminate|].
  simpl in Hex. apply orb_true_iff in Hex as [Hi|Hex].
  - destruct i as [c|name conv spec|]; try discriminate.
    apply andb_true_iff in Hi as [Hp Hs]. apply negb_true_iff in Hs.
    exists (KeyError (KStr (arg_name name))). simpl render.
    rewrite (render_field_unsupplied _ _ _ Hp (Hkw _ Hs)). reflexivity.
  - destruct (IH Hex) as [e He]. destruct i as [c|name conv spec|]; simpl render.
    + rewrite He. eauto.
    + destruct (render_field W kw name conv spec) as [x|e']; simpl; [|eauto].
      rewrite He. eauto.
    + eauto.
Qed.

End Render.

(** ** Scanning literal text and plain fields *)

Lemma not_brace (c : N) :
  is_brace c = false -> (c =? lbrace) = false /\ (c =? rbrace) = false.
Proof. unfold is_brace. intros H. apply orb_false_iff in H. exact H. Qed.

Lemma parse_literal (pre rest : pystr) :
  brace_free pre = true ->
  parse Text (pre ++ rest) = map Lit pre ++ parse Text rest.
Proof.
  induction pre as [|c pre IH]; intros Hfree; [reflexivity|].
  simpl in Hfree. apply andb_true_iff in Hfree as [Hc Hfree].
  apply negb_true_iff, not_brace in Hc as [Hl Hr].
  change ((c :: pre) ++ rest) with (c :: (pre ++ rest)).
  change (parse Text (c :: (pre ++ rest)))
    with (if c =? lbrace then
            match pre ++ rest with
            | [] => [Malformed]
            | c' :: r' => if c' =? lbrace then Lit lbrace :: parse Text r'
                          else parse (Name []) (pre ++ rest)
            end
          else if c =? rbrace then
            match pre ++ rest with
            | [] => [Malformed]
            | c' :: r' => if c' =? rbrace then Lit rbrace :: parse Text r'
                          else [Malformed]
            end
          else Lit c :: parse Text (pre ++ rest)).
  rewrite Hl, Hr, (IH Hfree). reflexivity.
Qed.

Lemma plain_char_cases (c : N) :
  plain_char c = true ->
  (c =? lbrace) = false /\ (c =? rbrace) = false /\ (c =? lbracket) = false
  /\ (c =? colon) = false /\ (c =? bang) = false.
Proof.
  unfold plain_char. intros H.
  apply andb_true_iff in H as [H Hba]. apply andb_true_iff in H as [H Hco].
  apply andb_true_iff in H as [H Hb]. apply andb_true_iff in H as [Hl Hr].
  apply negb_true_iff in Hl, Hr, Hb, Hco, Hba. auto.
Qed.

(** A field [{name}] whose name has none of the characters with a role. *)
Lemma parse_name (name rest : pystr) : forall acc,
  forallb plain_char name = true ->
  parse (Name acc) (name ++ rbrace :: rest)
  = Field (rev acc ++ name) None [] :: parse Text rest.
Proof.
  induction name as [|c name IH]; intros acc Hname.
  - simpl. rewrite app_nil_r. reflexivity.
  - simpl in Hname. apply andb_true_iff in Hname as [Hc Hname].
    destruct (plain_char_cases _ Hc) as [Hl [Hr [Hb [Hco Hba]]]].
    simpl. rewrite Hl, Hb, Hr, Hco, Hba, (IH _ Hname). simpl.
    rewrite <- app_assoc. reflexivity.
Qed.

Lemma parse_literal_field (pre name rest : pystr) :
  brace_free pre = true ->
  name <> [] ->
  forallb plain_char name = true ->
  parse Text (pre ++ lbrace :: name ++ rbrace :: rest)
  = map Lit pre ++ Field name None [] :: parse Text rest.
Proof.
  intros Hpre Hne Hname. rewrite (parse_literal _ _ Hpre). f_equal.
  destruct name as [|c name]; [contradiction|].
  pose proof (parse_name (c :: name) rest [] Hname) as Hfield.
  simpl in Hname. apply andb_true_iff in Hname as [Hc _].
  destruct (plain_char_cases _ Hc) as [Hl _].
  change (parse Text (lbrace :: (c :: name) ++ rbrace :: rest))
    with (if c =? lbrace then Lit lbrace :: parse Text (name ++ rbrace :: rest)
          else parse (Name []) ((c :: name) ++ rbrace :: rest)).
  rewrite Hl. exact Hfield.
Qed.

(** ** Text extraction *)

Lemma page_loop_texts (texts : list pystr) : forall acc,
  page_loop (map Return texts) acc
  = Return (acc ++ concat (map (fun t => t ++ [newline]) texts)).
Proof.
  induction texts as [|t texts IH]; intros acc; simpl.
  - rewrite app_nil_r. reflexivity.
  - rewrite IH, <- app_assoc. reflexivity.
Qed.

Lemma full_text_fetched W url content pages :
  requests_get W url = Return content ->
  PdfReader W content = Return pages ->
  full_text W url = ([Invoke_extract url; HttpGet url], Done (page_loop pages [])).
Proof.
  intros Hget Hpdf. unfold full_text, log, lift. cbn.
  rewrite Hget. cbn. rewrite Hpdf. cbn. reflexivity.
Qed.

Lemma extract_fetched W url content pages :
  requests_get W url = Return content ->
  PdfReader W content = Return pages ->
  extract_text_from_pdf W url
  = ([Invoke_extract url; HttpGet url],
     Done (text ← page_loop pages []; Return (take 3000 text))).
Proof.
  intros Hget Hpdf. unfold extract_text_from_pdf.
  rewrite (full_text_fetched _ _ _ _ Hget Hpdf).
  destruct (page_loop pages []); reflexivity.
Qed.

(** C3.  Once the PDF is fetched and decoded and every page gives its text,
    [extract_text_from_pdf] returns the first 3000 characters of the
    concatenation: at most 3000 characters, and when the concatenation is
    longer, exactly 3000 of them, equal to the concatenation position by
    position. *)
Theorem extract_truncates_to_3000 (W : World) (url : pystr) content pages full :
  requests_get W url = Return content ->
  PdfReader W content = Return pages ->
  page_loop pages [] = Return full ->
  exists s,
    outcome_of (extract_text_from_pdf W url) = Done (Return s)
    /\ (length s <= 3000)%nat
    /\ s = take 3000 full
    /\ ((3000 < length full)%nat ->
        length s = 3000%nat
        /\ (forall i, (i < 3000)%nat -> s !! i = full !! i)
        /\ exists remainder, full = s ++ remainder).
Proof.
  intros Hget Hpdf Hloop. exists (take 3000 full).
  rewrite (extract_fetched _ _ _ _ Hget Hpdf), Hloop.
  split; [reflexivity|]. split; [rewrite length_take; lia|].
  split; [reflexivity|]. intros Hlong. split; [rewrite length_take; lia|].
  split.
  - intros i Hi. apply lookup_take_lt, Hi.
  - exists (drop 3000 full). symmetry. apply take_drop.
Qed.

(** C4.  For a PDF of N pages whose texts are [texts], the text built before
    the slice is the texts in document order, each followed by one newline,
    the last one included: N newline-terminated segments. *)
Theorem full_text_is_pages_with_newlines (W : World) (url : pystr) content
    (texts : list pystr) :
  requests_get W url = Return content ->
  PdfReader W content = Return (map Return texts) ->
  exists segments,
    outcome_of (full_text W url) = Done (Return (concat segments))
    /\ length segments = length texts
    /\ Forall2 (fun segment t => segment = t ++ [newline]) segments texts
    /\ outcome_of (extract_text_from_pdf W url)
       = Done (Return (take 3000 (concat segments))).
Proof.
  intros Hget Hpdf. exists (map (fun t => t ++ [newline]) texts).
  rewrite (full_text_fetched _ _ _ _ Hget Hpdf).
  rewrite (extract_fetched _ _ _ _ Hget Hpdf).
  rewrite page_loop_texts. simpl.
  split; [reflexivity|]. split; [apply length_map|]. split; [|reflexivity].
  clear Hpdf. induction texts; constructor; auto.
Qed.

(** ** The completion request *)

Lemma completion_call_result W headers data :
  completion_call W headers data
  = ([HttpPost GROQ_URL headers data], Done (completion_result W headers data)).
Proof.
  unfold completion_call, completion_result, log, lift. cbn.
  destruct (requests_post W GROQ_URL headers data) as [response|e]; cbn; [|reflexivity].
  destruct (check_status response) as [[]|e]; cbn; [|reflexivity].
  destruct (response_json response) as [body|e]; cbn; [|reflexivity].
  destruct (completion_content body) as [summary|e]; cbn; reflexivity.
Qed.

Lemma completion_call_shape W headers data :
  exists r, completion_call W headers data
            = ([HttpPost GROQ_URL headers data], Done r).
Proof. rewrite completion_call_result. eauto. Qed.

(** What the [try] of lines 60-66 makes of the call. *)
Lemma guarded_call W headers data r :
  completion_call W headers data = ([HttpPost GROQ_URL headers data], Done r) ->
  try_except (completion_call W headers data)
    (fun e => mret (error_prefix ++ describe W e))
  = ([HttpPost GROQ_URL headers data],
     Done (Return match r with
                  | Return s => s
                  | Raise e => error_prefix ++ describe W e
                  end)).
Proof. intros ->. destruct r; reflexivity. Qed.

(** [generate_summary] once the request is built. *)
Lemma generate_summary_built W text audience n prompt data :
  build_prompt W text audience n = Return prompt ->
  request_data W prompt = Return data ->
  generate_summary W text audience n
  = let '(t, o) := try_except (completion_call W (request_headers W) data)
                     (fun e => mret (error_prefix ++ describe W e)) in
    (Invoke_generate text audience n :: t, o).
Proof.
  intros Hp Hd. unfold generate_summary, log, lift. cbn.
  rewrite Hp. cbn. rewrite Hd. cbn.
  destruct (try_except _ _) as [t o]. reflexivity.
Qed.

(** [generate_summary] never stops the script, and the only events it adds
    after its own entry are network calls. *)
Lemma generate_summary_shape W text audience n :
  exists t r,
    generate_summary W text audience n = (Invoke_generate text audience n :: t, Done r)
    /\ (t = [] \/ exists headers data, t = [HttpPost GROQ_URL headers data]).
Proof.
  destruct (build_prompt W text audience n) as [prompt|e] eqn:Hp.
  2:{ exists [], (Raise e). split; [|auto].
      unfold generate_summary, log, lift. cbn. rewrite Hp. reflexivity. }
  destruct (request_data W prompt) as [data|e] eqn:Hd.
  2:{ exists [], (Raise e). split; [|auto].
      unfold generate_summary, log, lift. cbn. rewrite Hp. cbn. rewrite Hd.
      reflexivity. }
  rewrite (generate_summary_built _ _ _ _ _ _ Hp Hd).
  destruct (completion_call_shape W (request_headers W) data) as [r Hr].
  rewrite (guarded_call _ _ _ _ Hr). eauto 8.
Qed.

(** A template with its two fields, the format string over the three
    placeholders, lets the request be built for any input. *)
Lemma valid_template_builds W text audience n :
  valid_template (TEMPLATE W) = true ->
  exists prompt data,
    build_prompt W text audience n = Return prompt
    /\ request_data W prompt = Return data.
Proof.
  unfold valid_template, build_prompt, request_data.
  destruct (TEMPLATE W) as [| | | | |o]; try discriminate.
  simpl getitem.
  destruct (o !! str_of "system_prompt") as [[| | |sys| |]|]; try discriminate.
  destruct (o !! str_of "prompt_template") as [[| | |fmt| |]|]; try discriminate.
  intros Hok.
  destruct (render_ok W (prompt_kwargs text audience n) (parse Text fmt)
              (kwargs_supplied text audience n) Hok) as [prompt Hprompt].
  exists prompt. eexists. split; [exact Hprompt|reflexivity].
Qed.

Lemma py_index_first {A} (x : A) (rest : list A) : py_index (x :: rest) 0 = Some x.
Proof.
  unfold py_index. change (0 <? 0)%Z with false. cbv beta iota zeta.
  replace (0 <? Z.of_nat (length (x :: rest)))%Z with true; [reflexivity|].
  symmetry. apply Z.ltb_lt. rewrite length_cons. lia.
Qed.

(** The lookup of line 63 on a body whose first choice is an object. *)
Lemma completion_content_first o c rest :
  o !! str_of "choices" = Some (JArr (JObj c :: rest)) ->
  completion_content (JObj o)
  = (message ← getitem (JObj c) (KStr (str_of "message"));
     getitem message (KStr (str_of "content"))).
Proof.
  intros Hchoices. unfold completion_content.
  change (getitem (JObj o) (KStr (str_of "choices")))
    with (match o !! str_of "choices" with
          | Some x => Return x
          | None => Raise (KeyError (KStr (str_of "choices")))
          end).
  rewrite Hchoices.
  change (Return (JArr (JObj c :: rest)) ≫= _)
    with (c0 ← match py_index (JObj c :: rest) 0 with
               | Some x => Return x
               | None => Raise IndexError
               end;
          message ← getitem c0 (KStr (str_of "message"));
          getitem message (KStr (str_of "content"))).
  rewrite py_index_first. reflexivity.
Qed.

Lemma generate_summary_prompt_fails W text audience n e :
  build_prompt W text audience n = Raise e ->
  generate_summary W text audience n
  = ([Invoke_generate text audience n], Done (Raise e)).
Proof.
  intros Hp. unfold generate_summary, log, lift. cbn. rewrite Hp. reflexivity.
Qed.

Lemma generate_summary_data_fails W text audience n prompt e :
  build_prompt W text audience n = Return prompt ->
  request_data W prompt = Raise e ->
  generate_summary W text audience n
  = ([Invoke_generate text audience n], Done (Raise e)).
Proof.
  intros Hp Hd. unfold generate_summary, log, lift. cbn.
  rewrite Hp. cbn. rewrite Hd. reflexivity.
Qed.

(** C1 (amended).  Once the prompt and the request body are built, which is
    so for every text, audience and length when the template has its two
    string fields and a format string over [{audience}], [{length}] and
    [{text}], [generate_summary] returns a string whatever the completion
    call does, and in each failure case (the POST raises, the status check
    raises, the body is not JSON, the body is not an object, [choices],
    its first element, [message] or [content] is missing, the content is
    not a string) the string is U+274C, [" Error: "], then the description
    of the failure.  A failure in building the request is outside the [try]
    and leaves the function. *)
Theorem generate_summary_guards_the_request (W : World) (text audience : pystr)
    (n : Z) :
  (valid_template (TEMPLATE W) = true ->
   exists prompt data,
     build_prompt W text audience n = Return prompt
     /\ request_data W prompt = Return data)
  /\ (forall e,
        build_prompt W text audience n = Raise e ->
        outcome_of (generate_summary W text audience n) = Done (Raise e))
  /\ (forall prompt e,
        build_prompt W text audience n = Return prompt ->
        request_data W prompt = Raise e ->
        outcome_of (generate_summary W text audience n) = Done (Raise e))
  /\ (forall prompt data,
        build_prompt W text audience n = Return prompt ->
        request_data W prompt = Return data ->
        exists s,
          outcome_of (generate_summary W text audience n) = Done (Return s)
          /\ (forall e,
                requests_post W GROQ_URL (request_headers W) data = Raise e ->
                s = (10060 :: str_of " Error: ") ++ describe W e)
          /\ (forall r,
                requests_post W GROQ_URL (request_headers W) data = Return r ->
                (forall e, raise_for_status r = Some e ->
                   s = (10060 :: str_of " Error: ") ++ describe W e)
                /\ (raise_for_status r = None ->
                    (forall e, response_json r = Raise e ->
                       s = (10060 :: str_of " Error: ") ++ describe W e)
                    /\ (forall body, response_json r = Return body ->
                          ((forall o, body <> JObj o) ->
                           s = (10060 :: str_of " Error: ") ++ describe W TypeError)
                          /\ (forall o, body = JObj o ->
                                (o !! str_of "choices" = None ->
                                 s = (10060 :: str_of " Error: ")
                                     ++ describe W (KeyError (KStr (str_of "choices"))))
                                /\ (o !! str_of "choices" = Some (JArr []) ->
                                    s = (10060 :: str_of " Error: ")
                                        ++ describe W IndexError)
                                /\ (forall c rest,
                                      o !! str_of "choices" = Some (JArr (JObj c :: rest)) ->
                                      (c !! str_of "message" = None ->
                                       s = (10060 :: str_of " Error: ")
                                           ++ describe W (KeyError (KStr (str_of "message"))))
                                      /\ (forall m,
                                            c !! str_of "message" = Some (JObj m) ->
                                            (m !! str_of "content" = None ->
                                             s = (10060 :: str_of " Error: ")
                                                 ++ describe W
                                                      (KeyError (KStr (str_of "content"))))
                                            /\ (forall v,
                                                  m !! str_of "content" = Some v ->
                                                  (forall t, v <> JStr t) ->
                                                  s = (10060 :: str_of " Error: ")
                                                      ++ describe W AttributeError))))
                          /\ (forall e, completion_content body = Raise e ->
                                s = (10060 :: str_of " Error: ") ++ describe W e))))).
Proof.
  split; [apply valid_template_builds|].
  split; [intros e Hp; rewrite (generate_summary_prompt_fails _ _ _ _ _ Hp); reflexivity|].
  split; [intros prompt e Hp Hd;
          rewrite (generate_summary_data_fails _ _ _ _ _ _ Hp Hd); reflexivity|].
  intros prompt data Hp Hd.
  rewrite (generate_summary_built _ _ _ _ _ _ Hp Hd).
  rewrite (guarded_call _ _ _ _ (completion_call_result _ _ _)).
  eexists. split; [reflexivity|].
  unfold completion_result. split.
  - intros e ->. reflexivity.
  - intros r ->. cbn. unfold check_status. split.
    + intros e ->. reflexivity.
    + intros ->. cbn. split.
      * intros e ->. reflexivity.
      * intros body ->. cbn. split; [|split].
        -- intros Hobj. destruct body; try reflexivity.
           exfalso. eapply Hobj. reflexivity.
        -- intros o ->. split; [|split].
           ++ intros Hnone. unfold completion_content. cbn. rewrite Hnone.
              reflexivity.
           ++ intros Hempty. unfold completion_content. cbn. rewrite Hempty.
              reflexivity.
           ++ intros c rest Hchoices.
              rewrite (completion_content_first _ _ _ Hchoices). cbn. split.
              ** intros ->. reflexivity.
              ** intros m ->. cbn. split.
                 --- intros ->. reflexivity.
                 --- intros v -> Hv. cbn. destruct v; try reflexivity.
                     exfalso. eapply Hv. reflexivity.
        -- intros e ->. reflexivity.
Qed.

(** The POST that [generate_summary] makes is the one of the built request. *)
Lemma generate_summary_post W text audience n headers data :
  HttpPost GROQ_URL headers data ∈ trace_of (generate_summary W text audience n) ->
  headers = request_headers W
  /\ exists prompt,
       build_prompt W text audience n = Return prompt
       /\ request_data W prompt = Return data.
Proof.
  intros Hin.
  destruct (build_prompt W text audience n) as [prompt|e] eqn:Hp.
  2:{ rewrite (generate_summary_prompt_fails _ _ _ _ _ Hp) in Hin.
      apply list_elem_of_singleton in Hin. discriminate Hin. }
  destruct (request_data W prompt) as [data'|e] eqn:Hd.
  2:{ rewrite (generate_summary_data_fails _ _ _ _ _ _ Hp Hd) in Hin.
      apply list_elem_of_singleton in Hin. discriminate Hin. }
  rewrite (generate_summary_built _ _ _ _ _ _ Hp Hd) in Hin.
  rewrite (guarded_call _ _ _ _ (completion_call_result _ _ _)) in Hin.
  unfold trace_of, fst in Hin.
  apply elem_of_cons in Hin as [Hin|Hin]; [discriminate Hin|].
  apply list_elem_of_singleton in Hin. injection Hin as -> ->.
  split; [reflexivity|]. exists prompt. split; [reflexivity|exact Hd].
Qed.

Lemma generate_summary_posts W text audience n prompt data :
  build_prompt W text audience n = Return prompt ->
  request_data W prompt = Return data ->
  HttpPost GROQ_URL (request_headers W) data
  ∈ trace_of (generate_summary W text audience n).
Proof.
  intros Hp Hd. rewrite (generate_summary_built _ _ _ _ _ _ Hp Hd).
  rewrite (guarded_call _ _ _ _ (completion_call_result _ _ _)).
  apply list_elem_of_further, list_elem_of_here.
Qed.

(** C6.  When the POST that [generate_summary] makes is answered, the
    status check passes and the JSON body is an object whose [choices] is a
    list with a first element holding a string at [message.content],
    [generate_summary] returns that string, the one of the first choice
    whatever the other choices are, without the whitespace at its two ends
    and with nothing else removed; for the content [" Hello world. "] it is
    ["Hello world."]. *)
Theorem generate_summary_returns_stripped_content (W : World)
    (text audience : pystr) (n : Z) (headers : gmap pystr pystr) (data : json)
    (r : Response) (o c m : gmap pystr json) (rest : list json) (content : pystr) :
  HttpPost GROQ_URL headers data ∈ trace_of (generate_summary W text audience n) ->
  requests_post W GROQ_URL headers data = Return r ->
  raise_for_status r = None ->
  response_json r = Return (JObj o) ->
  o !! str_of "choices" = Some (JArr (JObj c :: rest)) ->
  c !! str_of "message" = Some (JObj m) ->
  m !! str_of "content" = Some (JStr content) ->
  exists s,
    outcome_of (generate_summary W text audience n) = Done (Return s)
    /\ s = py_strip content
    /\ (exists lead trail,
          content = lead ++ s ++ trail
          /\ forallb py_isspace lead = true
          /\ forallb py_isspace trail = true)
    /\ (forall ch, head s = Some ch -> py_isspace ch = false)
    /\ (forall ch, last s = Some ch -> py_isspace ch = false)
    /\ (content = str_of " Hello world. " -> s = str_of "Hello world.").
Proof.
  intros Hin Hpost Hstatus Hjson Hchoices Hmessage Hcontent.
  destruct (generate_summary_post _ _ _ _ _ _ Hin) as [-> [prompt [Hp Hd]]].
  exists (py_strip content).
  rewrite (generate_summary_built _ _ _ _ _ _ Hp Hd).
  rewrite (guarded_call _ _ _ _ (completion_call_result _ _ _)).
  unfold completion_result. rewrite Hpost. cbn.
  unfold check_status. rewrite Hstatus. cbn. rewrite Hjson.
  cbv [mbind result_bind]. rewrite (completion_content_first _ _ _ Hchoices). cbn.
  rewrite Hmessage. cbn. rewrite Hcontent. cbn.
  destruct (py_strip_spec content) as [lead [trail [Heq [Hl [Ht [Hh Hla]]]]]].
  split; [reflexivity|]. split; [reflexivity|].
  split; [exists lead, trail; auto|]. split; [exact Hh|]. split; [exact Hla|].
  intros ->. reflexivity.
Qed.

(** ** Building the prompt *)

Lemma build_prompt_str W fmt text audience n :
  getitem (TEMPLATE W) (KStr (str_of "prompt_template")) = Return (JStr fmt) ->
  build_prompt W text audience n
  = render W (prompt_kwargs text audience n) (parse Text fmt).
Proof. intros H. unfold build_prompt. rewrite H. reflexivity. Qed.





(** ** The button handler *)

Arguments generate_summary : simpl never.
Arguments extract_text_from_pdf : simpl never.

Section Handler.
Context (W : World) (url : pystr) (a : AudienceLabel) (n : Z).
Context (te : list event).

Lemma button_handler_empty_text :
  url <> [] ->
  extract_text_from_pdf W url = (te, Done (Return [])) ->
  button_handler W url a n
  = (SpinnerEnter (str_of "Downloading and processing paper...") :: te ++ [StError extract_failed_msg; SpinnerExit],
     Stop).
Proof.
  intros Hurl Hext. unfold button_handler, run_pipeline.
  destruct url; [contradiction|]. rewrite Hext. cbn.
  rewrite <- app_assoc. reflexivity.
Qed.

Lemma button_handler_extract_raises e :
  url <> [] ->
  extract_text_from_pdf W url = (te, Done (Raise e)) ->
  button_handler W url a n
  = (SpinnerEnter (str_of "Downloading and processing paper...")
       :: te ++ [StError (str_of "Error: " ++ describe W e); SpinnerExit],
     Done (Return tt)).
Proof.
  intros Hurl Hext. unfold button_handler, run_pipeline.
  destruct url; [contradiction|]. rewrite Hext. cbn.
  rewrite <- app_assoc. reflexivity.
Qed.

Lemma button_handler_summary text tg s :
  url <> [] -> text <> [] ->
  extract_text_from_pdf W url = (te, Done (Return text)) ->
  generate_summary W text (label_str a) n = (tg, Done (Return s)) ->
  button_handler W url a n
  = (SpinnerEnter (str_of "Downloading and processing paper...")
       :: te ++ SpinnerEnter (str_of "Generating summary (this may take 20-30 seconds)...")
       :: tg ++ [SpinnerExit;
                 StSuccess (str_of "Summary Generated!");
                 StSubheader (str_of "Research Summary");
                 StMarkdown (summary_html s) true;
                 SpinnerExit],
     Done (Return tt)).
Proof.
  intros Hurl Htext Hext Hgen. unfold button_handler, run_pipeline.
  destruct url; [contradiction|]. rewrite Hext. cbn.
  destruct text as [|c text']; [contradiction|]. cbn.
  rewrite Hgen. cbn. rewrite <- !app_assoc. cbn. rewrite <- !app_assoc.
  reflexivity.
Qed.

Lemma button_handler_generate_raises text tg e :
  url <> [] -> text <> [] ->
  extract_text_from_pdf W url = (te, Done (Return text)) ->
  generate_summary W text (label_str a) n = (tg, Done (Raise e)) ->
  button_handler W url a n
  = (SpinnerEnter (str_of "Downloading and processing paper...")
       :: te ++ SpinnerEnter (str_of "Generating summary (this may take 20-30 seconds)...")
       :: tg ++ [SpinnerExit;
                 StError (str_of "Error: " ++ describe W e);
                 SpinnerExit],
     Done (Return tt)).
Proof.
  intros Hurl Htext Hext Hgen. unfold button_handler, run_pipeline.
  destruct url; [contradiction|]. rewrite Hext. cbn.
  destruct text as [|c text']; [contradiction|]. cbn.
  rewrite Hgen. cbn. rewrite <- !app_assoc. cbn. rewrite <- !app_assoc.
  reflexivity.
Qed.

End Handler.

(** After literal text and supplied placeholders, the first placeholder
    with a keyword that is not passed decides the exception. *)
Lemma render_first_unsupplied W text audience n before name conv spec after :
  forallb item_ok before = true ->
  names_unsupplied (Field name conv spec) = true ->
  render W (prompt_kwargs text audience n) (before ++ Field name conv spec :: after)
  = Raise (KeyError (KStr (arg_name name))).
Proof.
  intros Hok Hun. simpl in Hun. apply andb_true_iff in Hun as [Hkey Hs].
  apply negb_true_iff in Hs.
  induction before as [|i before IH].
  - simpl app. simpl render.
    rewrite (render_field_unsupplied W _ _ _ _ Hkey (kwargs_unsupplied _ _ _ _ Hs)).
    reflexivity.
  - simpl in Hok. apply andb_true_iff in Hok as [Hi Hok].
    destruct (render_ok W (prompt_kwargs text audience n) [i]
                (kwargs_supplied _ _ _)) as [out Hout].
    { simpl. rewrite Hi. reflexivity. }
    destruct (item_ok_field i Hi) as [[c ->]|[k [-> Hk]]];
      simpl app; simpl render; rewrite (IH Hok).
    + reflexivity.
    + simpl render in Hout.
      destruct (render_field W (prompt_kwargs text audience n) k None []);
        [reflexivity|discriminate Hout].
Qed.

(** C2 (amended).  When a replacement field of the format string has a
    keyword other than [audience], [length] and [text], with or without an
    accessor, a conversion or a format spec, [generate_summary] does not
    return an error string: [format] raises before any HTTP call is made and
    the exception leaves the function.  The exception is the [KeyError] of
    that keyword when only literal text and the placeholders [{audience}],
    [{length}] and [{text}] stand before the field, and so, read on the
    format string itself, when the field [{name}] follows text without a
    brace.  It is the [except] clause of the button handler that recovers
    the exception, shows it as an error and lets the run finish. *)
Theorem unsupplied_key_raises_to_caller (W : World) (fmt text audience : pystr)
    (n : Z) :
  getitem (TEMPLATE W) (KStr (str_of "prompt_template")) = Return (JStr fmt) ->
  references_unsupplied fmt = true ->
  (exists e,
     generate_summary W text audience n
     = ([Invoke_generate text audience n], Done (Raise e))
     /\ forall url a te,
          url <> [] -> text <> [] -> audience = label_str a ->
          extract_text_from_pdf W url = (te, Done (Return text)) ->
          button_handler W url a n
          = (SpinnerEnter (str_of "Downloading and processing paper...")
               :: te
               ++ [SpinnerEnter (str_of "Generating summary (this may take 20-30 seconds)...");
                   Invoke_generate text audience n;
                   SpinnerExit;
                   StError (str_of "Error: " ++ describe W e);
                   SpinnerExit],
             Done (Return tt)))
  /\ (forall before name conv spec after,
        parse Text fmt = before ++ Field name conv spec :: after ->
        forallb item_ok before = true ->
        names_unsupplied (Field name conv spec) = true ->
        generate_summary W text audience n
        = ([Invoke_generate text audience n],
           Done (Raise (KeyError (KStr (arg_name name))))))
  /\ (forall pre name rest,
        fmt = pre ++ lbrace :: name ++ rbrace :: rest ->
        brace_free pre = true ->
        forallb plain_char name = true ->
        keyword_name (arg_name name) = true ->
        supplied (arg_name name) = false ->
        generate_summary W text audience n
        = ([Invoke_generate text audience n],
           Done (Raise (KeyError (KStr (arg_name name)))))).
Proof.
  intros Hfmt Href. split; [|split].
  - destruct (render_unsupplied W (prompt_kwargs text audience n) (parse Text fmt)
                (kwargs_unsupplied _ _ _) Href) as [e He].
    assert (Hgen : generate_summary W text audience n
                   = ([Invoke_generate text audience n], Done (Raise e))).
    { apply generate_summary_prompt_fails.
      rewrite (build_prompt_str _ _ _ _ _ Hfmt). exact He. }
    exists e. split; [exact Hgen|].
    intros url a te Hurl Htext -> Hext.
    apply (button_handler_generate_raises W url a n te text _ e Hurl Htext Hext Hgen).
  - intros before name conv spec after Hparse Hok Hun.
    apply generate_summary_prompt_fails.
    rewrite (build_prompt_str _ _ _ _ _ Hfmt), Hparse.
    apply (render_first_unsupplied _ _ _ _ _ _ _ _ _ Hok Hun).
  - intros pre name rest -> Hpre Hname Hkey Hs.
    assert (Hne : name <> []) by (intros ->; discriminate Hkey).
    apply generate_summary_prompt_fails.
    rewrite (build_prompt_str _ _ _ _ _ Hfmt).
    rewrite (parse_literal_field _ _ _ Hpre Hne Hname).
    apply render_first_unsupplied.
    + clear. induction pre; simpl; auto.
    + simpl. rewrite Hkey, Hs. reflexivity.
Qed.

(** C5 (amended).  When the bytes are not a PDF, [extract_text_from_pdf]
    raises what the decoder raised.  A document with no page is not an error
    of the function: it returns the empty string; the button handler then
    shows the extraction failure and stops the run before any summary is
    asked for. *)
Theorem extract_decoder_failure_and_empty_document (W : World) (url : pystr)
    content :
  requests_get W url = Return content ->
  (forall e, PdfReader W content = Raise e ->
     outcome_of (extract_text_from_pdf W url) = Done (Raise e))
  /\ (PdfReader W content = Return [] ->
      outcome_of (extract_text_from_pdf W url) = Done (Return [])
      /\ forall a n,
           url <> [] ->
           button_handler W url a n
           = ([SpinnerEnter (str_of "Downloading and processing paper...");
               Invoke_extract url;
               HttpGet url;
               StError extract_failed_msg;
               SpinnerExit],
              Stop)).
Proof.
  intros Hget. split.
  - intros e Hpdf. unfold extract_text_from_pdf, full_text, log, lift. cbn.
    rewrite Hget. cbn. rewrite Hpdf. reflexivity.
  - intros Hpdf. pose proof (extract_fetched _ _ _ _ Hget Hpdf) as Hext.
    cbn in Hext. split; [rewrite Hext; reflexivity|].
    intros a n Hurl.
    apply (button_handler_empty_text W url a n _ Hurl Hext).
Qed.

(** C8.  A run triggered with an empty URL shows the warning and nothing
    else before the footer: no HTTP call, neither [extract_text_from_pdf] nor
    [generate_summary] entered, and the script runs to its end. *)
Theorem empty_url_only_warns (W : World) (a : AudienceLabel) (n : Z) :
  button_handler W [] a n = ([StWarning warning_msg], Done (Return tt))
  /\ trace_of (script W true [] a n)
     = [StWarning warning_msg;
        StMarkdown (str_of "---") false;
        StMarkdown (str_of "Built with " ++ heart :: str_of " using Llama3 70B via Groq API")
          false]
  /\ outcome_of (script W true [] a n) = Done (Return tt)
  /\ forallb (fun ev => negb (is_network ev) && negb (is_invocation ev))
       (trace_of (script W true [] a n)) = true.
Proof. repeat split. Qed.

(** C9 (amended).  Loading the template fails at startup when the file
    cannot be opened or is not JSON.  Whatever parses is accepted, with or
    without the two fields: a missing field shows only at the first call of
    [generate_summary], as a [KeyError] raised before any HTTP call. *)
Theorem load_template_checks_no_field (d : Disk) :
  (forall e, open_template d = Raise e -> load_template d = Raise e)
  /\ (forall f e, open_template d = Return f -> json_load d f = Raise e ->
        load_template d = Raise e)
  /\ (forall f T, open_template d = Return f -> json_load d f = Return T ->
        load_template d = Return T)
  /\ (forall W o text audience n,
        load_template d = Return (TEMPLATE W) -> TEMPLATE W = JObj o ->
        (o !! str_of "prompt_template" = None ->
         generate_summary W text audience n
         = ([Invoke_generate text audience n],
            Done (Raise (KeyError (KStr (str_of "prompt_template"))))))
        /\ (forall prompt,
              build_prompt W text audience n = Return prompt ->
              o !! str_of "system_prompt" = None ->
              generate_summary W text audience n
              = ([Invoke_generate text audience n],
                 Done (Raise (KeyError (KStr (str_of "system_prompt"))))))).
Proof.
  unfold load_template. split; [|split; [|split]].
  - intros e ->. reflexivity.
  - intros f e -> Hj. exact Hj.
  - intros f T -> Hj. exact Hj.
  - intros W o text audience n _ HT. split.
    + intros Hnone. unfold generate_summary, build_prompt, log, lift.
      rewrite HT. cbn. rewrite Hnone. reflexivity.
    + intros prompt Hp Hnone. unfold generate_summary, request_data, log, lift.
      cbn. rewrite Hp. cbn. rewrite HT. cbn. rewrite Hnone. reflexivity.
Qed.

(** ** Pages without text *)

Lemma blank_pages_texts (N : nat) :
  replicate N (Return ([] : pystr)) = map Return (replicate N []).
Proof. induction N as [|N IH]; simpl; [reflexivity|]. rewrite IH. reflexivity. Qed.

Lemma blank_pages_newlines (N : nat) :
  concat (map (fun t : pystr => t ++ [newline]) (replicate N []))
  = replicate N newline.
Proof. induction N as [|N IH]; simpl; [reflexivity|]. rewrite IH. reflexivity. Qed.

Lemma extract_blank_pages W url content N :
  requests_get W url = Return content ->
  PdfReader W content = Return (replicate N (Return [])) ->
  extract_text_from_pdf W url
  = ([Invoke_extract url; HttpGet url],
     Done (Return (replicate (3000 `min` N) newline))).
Proof.
  intros Hget Hpdf. rewrite (extract_fetched _ _ _ _ Hget Hpdf).
  rewrite blank_pages_texts, page_loop_texts, blank_pages_newlines. cbn.
  rewrite take_replicate. reflexivity.
Qed.

Lemma error_is_not_extract_failure (s : pystr) :
  StError (str_of "Error: " ++ s) <> StError extract_failed_msg.
Proof. intros H. injection H as H. discriminate H. Qed.

(** C10 (amended).  For a PDF of N >= 1 pages that all extract to the empty
    string, [extract_text_from_pdf] returns min(N, 3000) newline characters,
    a string that is not empty and is all whitespace; the emptiness check of
    the button handler does not fire, the extraction failure is not shown,
    and [generate_summary] is called on that text. *)
Theorem blank_pages_reach_summary (W : World) (url : pystr) content (N : nat)
    (a : AudienceLabel) (n : Z) :
  (1 <= N)%nat ->
  url <> [] ->
  requests_get W url = Return content ->
  PdfReader W content = Return (replicate N (Return [])) ->
  exists text,
    text = replicate (3000 `min` N) newline
    /\ outcome_of (extract_text_from_pdf W url) = Done (Return text)
    /\ text <> []
    /\ forallb py_isspace text = true
    /\ (StError extract_failed_msg ∉ trace_of (button_handler W url a n))
    /\ (Invoke_generate text (label_str a) n ∈ trace_of (button_handler W url a n))
    /\ outcome_of (button_handler W url a n) = Done (Return tt).
Proof.
  intros HN Hurl Hget Hpdf.
  pose proof (extract_blank_pages _ _ _ _ Hget Hpdf) as Hext.
  set (text := replicate (3000 `min` N) newline) in *.
  assert (Htext : text <> []).
  { subst text. destruct N as [|N]; [lia|]. discriminate. }
  exists text. split; [reflexivity|]. split; [rewrite Hext; reflexivity|].
  split; [exact Htext|]. split.
  { subst text. apply forallb_forall. intros c Hc.
    apply list_elem_of_In, elem_of_replicate in Hc as [-> _]. reflexivity. }
  destruct (generate_summary_shape W text (label_str a) n) as [t [r [Hgen Ht]]].
  assert (Hnet : forall ev, ev ∈ t -> is_network ev = true).
  { intros ev Hev. destruct Ht as [->|[headers [data ->]]].
    - inversion Hev.
    - apply list_elem_of_singleton in Hev as ->. reflexivity. }
  destruct r as [s|e].
  - rewrite (button_handler_summary W url a n _ text _ s Hurl Htext Hext Hgen).
    unfold trace_of, outcome_of, fst, snd. split; [|split; [|reflexivity]].
    + intros Hin. cbn in Hin.
      repeat (apply elem_of_cons in Hin as [Hin|Hin]; [discriminate Hin|]).
      apply elem_of_app in Hin as [Hin|Hin].
      * apply Hnet in Hin. discriminate Hin.
      * repeat (apply elem_of_cons in Hin as [Hin|Hin]; [discriminate Hin|]).
        inversion Hin.
    + cbn. do 4 apply list_elem_of_further. apply list_elem_of_here.
  - rewrite (button_handler_generate_raises W url a n _ text _ e Hurl Htext Hext Hgen).
    unfold trace_of, outcome_of, fst, snd. split; [|split; [|reflexivity]].
    + intros Hin. cbn in Hin.
      repeat (apply elem_of_cons in Hin as [Hin|Hin]; [discriminate Hin|]).
      apply elem_of_app in Hin as [Hin|Hin].
      * apply Hnet in Hin. discriminate Hin.
      * apply elem_of_cons in Hin as [Hin|Hin]; [discriminate Hin|].
        apply elem_of_cons in Hin as [Hin|Hin].
        { symmetry in Hin. exact (error_is_not_extract_failure _ Hin). }
        apply elem_of_cons in Hin as [Hin|Hin]; [discriminate Hin|].
        inversion Hin.
    + cbn. do 4 apply list_elem_of_further. apply list_elem_of_here.
Qed.

(** * The theorems on sample worlds *)

Lemma generate_summary_guards_the_request_witness :
  valid_template Sample.template = true
  /\ outcome_of (generate_summary
                   (Sample.world Sample.template [] Sample.failing_response)
                   (str_of "Graphs") (str_of "Technical") 5)
     = Done (Return (10060 :: str_of " Error: 500 Server Error"))
  /\ outcome_of (generate_summary
                   (Scenario.answering Sample.template [] (JObj ∅))
                   (str_of "Graphs") (str_of "Technical") 5)
     = Done (Return (10060 :: str_of " Error: 'choices'")).
Proof.
  split; [reflexivity|].
  destruct (generate_summary_guards_the_request
              (Sample.world Sample.template [] Sample.failing_response)
              (str_of "Graphs") (str_of "Technical") 5)
    as [Hbuilt [_ [_ Hguard]]].
  destruct (Hbuilt eq_refl) as [prompt [data [Hp Hd]]].
  destruct (Hguard prompt data Hp Hd) as [s [Hs [_ Hresponse]]].
  destruct (Hresponse Sample.failing_response eq_refl) as [Hstatus _].
  split; [rewrite Hs, (Hstatus Sample.http_500 eq_refl); reflexivity|].
  destruct (generate_summary_guards_the_request
              (Scenario.answering Sample.template [] (JObj ∅))
              (str_of "Graphs") (str_of "Technical") 5)
    as [Hbuilt' [_ [_ Hguard']]].
  destruct (Hbuilt' eq_refl) as [prompt' [data' [Hp' Hd']]].
  destruct (Hguard' prompt' data' Hp' Hd') as [s' [Hs' [_ Hresponse']]].
  destruct (Hresponse' _ eq_refl) as [_ Hpassed].
  destruct (Hpassed eq_refl) as [_ Hbody].
  destruct (Hbody (JObj ∅) eq_refl) as [_ [Hobject _]].
  destruct (Hobject ∅ eq_refl) as [Hmissing _].
  rewrite Hs', (Hmissing eq_refl). reflexivity.
Defined.

Lemma generate_summary_returns_stripped_content_witness :
  outcome_of (generate_summary
                (Sample.world Sample.template [] Sample.stub_response)
                (str_of "Graphs") (str_of "Technical") 5)
  = Done (Return (str_of "Hello world."))
  /\ outcome_of (generate_summary
                   (Scenario.answering Sample.template [] Scenario.two_choices_body)
                   (str_of "Graphs") (str_of "Technical") 5)
     = Done (Return (str_of "Hello world.")).
Proof.
  split.
  - destruct (valid_template_builds
                (Sample.world Sample.template [] Sample.stub_response)
                (str_of "Graphs") (str_of "Technical") 5 eq_refl)
      as [prompt [data [Hp Hd]]].
    destruct (generate_summary_returns_stripped_content
                (Sample.world Sample.template [] Sample.stub_response)
                (str_of "Graphs") (str_of "Technical") 5
                (request_headers (Sample.world Sample.template [] Sample.stub_response))
                data Sample.stub_response
                {[ str_of "choices" :=
                     JArr [ JObj {[ str_of "message" :=
                       JObj {[ str_of "content" := JStr (str_of " Hello world. ") ]} ]} ] ]}
                {[ str_of "message" :=
                     JObj {[ str_of "content" := JStr (str_of " Hello world. ") ]} ]}
                {[ str_of "content" := JStr (str_of " Hello world. ") ]}
                [] (str_of " Hello world. ")
                (generate_summary_posts _ _ _ _ _ _ Hp Hd)
                eq_refl eq_refl eq_refl eq_refl eq_refl eq_refl)
      as [s [Hs [_ [_ [_ [_ Hstub]]]]]].
    rewrite Hs, (Hstub eq_refl). reflexivity.
  - destruct (valid_template_builds
                (Scenario.answering Sample.template [] Scenario.two_choices_body)
                (str_of "Graphs") (str_of "Technical") 5 eq_refl)
      as [prompt [data [Hp Hd]]].
    destruct (generate_summary_returns_stripped_content
                (Scenario.answering Sample.template [] Scenario.two_choices_body)
                (str_of "Graphs") (str_of "Technical") 5
                (request_headers
                   (Scenario.answering Sample.template [] Scenario.two_choices_body))
                data
                {| raise_for_status := None;
                   response_json := Return Scenario.two_choices_body |}
                {[ str_of "choices" :=
                     JArr [ JObj {[ str_of "message" :=
                              JObj {[ str_of "content" := JStr (str_of " Hello world. ") ]} ]};
                            JObj {[ str_of "message" :=
                              JObj {[ str_of "content" := JStr (str_of "Second choice") ]} ]} ] ]}
                {[ str_of "message" :=
                     JObj {[ str_of "content" := JStr (str_of " Hello world. ") ]} ]}
                {[ str_of "content" := JStr (str_of " Hello world. ") ]}
                [ JObj {[ str_of "message" :=
                    JObj {[ str_of "content" := JStr (str_of "Second choice") ]} ]} ]
                (str_of " Hello world. ")
                (generate_summary_posts _ _ _ _ _ _ Hp Hd)
                eq_refl eq_refl eq_refl eq_refl eq_refl eq_refl)
      as [s [Hs [_ [_ [_ [_ Hstub]]]]]].
    rewrite Hs, (Hstub eq_refl). reflexivity.
Defined.

Lemma extract_truncates_to_3000_witness :
  page_loop Sample.long_page [] = Return (Sample.long_text ++ [newline])
  /\ (3000 < length (Sample.long_text ++ [newline]))%nat
  /\ outcome_of (extract_text_from_pdf
                   (Sample.world Sample.template Sample.long_page Sample.stub_response)
                   Sample.url)
     = Done (Return (replicate 3000 97)).
Proof.
  split; [reflexivity|]. split; [vm_compute; lia|].
  destruct (extract_truncates_to_3000
              (Sample.world Sample.template Sample.long_page Sample.stub_response)
              Sample.url [] Sample.long_page (Sample.long_text ++ [newline])
              eq_refl eq_refl eq_refl)
    as [s [Hs [_ [Htake _]]]].
  rewrite Hs, Htake. vm_compute. reflexivity.
Defined.

Lemma full_text_is_pages_with_newlines_witness :
  Sample.two_pages = map Return [str_of "Page one"; str_of "Page two"]
  /\ exists segments,
       outcome_of (full_text
                     (Sample.world Sample.template Sample.two_pages Sample.stub_response)
                     Sample.url)
       = Done (Return (concat segments))
       /\ length segments = 2%nat.
Proof.
  split; [reflexivity|].
  destruct (full_text_is_pages_with_newlines
              (Sample.world Sample.template Sample.two_pages Sample.stub_response)
              Sample.url [] [str_of "Page one"; str_of "Page two"]
              eq_refl eq_refl)
    as [segments [Hfull [Hlen _]]].
  exists segments. split; [exact Hfull|exact Hlen].
Defined.


Lemma unsupplied_key_raises_to_caller_witness :
  references_unsupplied Scenario.format_with_accessor = true
  /\ generate_summary
       (Sample.world (Scenario.template_of Scenario.format_with_accessor) []
          Sample.stub_response)
       (str_of "Graphs") (str_of "Technical") 5
     = ([Invoke_generate (str_of "Graphs") (str_of "Technical") 5],
        Done (Raise (KeyError (KStr (str_of "topic"))))).
Proof.
  split; [reflexivity|].
  destruct (unsupplied_key_raises_to_caller
              (Sample.world (Scenario.template_of Scenario.format_with_accessor) []
                 Sample.stub_response)
              Scenario.format_with_accessor
              (str_of "Graphs") (str_of "Technical") 5 eq_refl eq_refl)
    as [_ [Hfirst _]].
  apply (Hfirst
           (map Lit (str_of "Summarize ") ++ Field (str_of "text") None []
              :: map Lit (str_of " on "))
           (str_of "topic.name") (Some 114) (str_of ">10")
           (map Lit (str_of " for ") ++ [Field (str_of "audience") None []]));
    reflexivity.
Defined.

Lemma extract_decoder_failure_and_empty_document_witness :
  outcome_of (extract_text_from_pdf
                (Sample.world Sample.template [] Sample.stub_response) Sample.url)
  = Done (Return [])
  /\ outcome_of (button_handler
                   (Sample.world Sample.template [] Sample.stub_response)
                   Sample.url Technical 5)
     = Stop.
Proof.
  destruct (extract_decoder_failure_and_empty_document
              (Sample.world Sample.template [] Sample.stub_response)
              Sample.url [] eq_refl)
    as [_ Hempty].
  destruct (Hempty eq_refl) as [Hext Hhandler].
  split; [exact Hext|].
  rewrite (Hhandler Technical 5%Z ltac:(discriminate)). reflexivity.
Defined.

Lemma load_template_checks_no_field_witness :
  load_template Sample.disk_empty_object = Return (JObj ∅)
  /\ generate_summary (Sample.world (JObj ∅) [] Sample.stub_response)
       (str_of "Graphs") (str_of "Technical") 5
     = ([Invoke_generate (str_of "Graphs") (str_of "Technical") 5],
        Done (Raise (KeyError (KStr (str_of "prompt_template"))))).
Proof.
  destruct (load_template_checks_no_field Sample.disk_empty_object)
    as [_ [_ [Hload Hfirst]]].
  split; [exact (Hload _ _ eq_refl eq_refl)|].
  destruct (Hfirst (Sample.world (JObj ∅) [] Sample.stub_response) ∅
              (str_of "Graphs") (str_of "Technical") 5%Z eq_refl eq_refl)
    as [Hprompt _].
  exact (Hprompt eq_refl).
Defined.

Lemma blank_pages_reach_summary_witness :
  exists text,
    outcome_of (extract_text_from_pdf
                  (Sample.world Sample.template (Sample.blank_pages 2) Sample.stub_response)
                  Sample.url)
    = Done (Return text)
    /\ text = [newline; newline].
Proof.
  destruct (blank_pages_reach_summary
              (Sample.world Sample.template (Sample.blank_pages 2) Sample.stub_response)
              Sample.url [] 2 Technical 5
              ltac:(lia) ltac:(discriminate) eq_refl eq_refl)
    as [text [Htext [Hext _]]].
  exists text. split; [exact Hext|]. rewrite Htext. reflexivity.
Defined.

(** * Where the code departs from the description *)

(** Against C1 as stated: with a template file that has no [system_prompt],
    the endpoint answering 500, [generate_summary] returns no string: the
    [KeyError] of line 53 leaves the function. *)
Lemma missing_field_escapes :
  outcome_of (generate_summary
                (Sample.world Scenario.template_no_system [] Sample.failing_response)
                (str_of "Graphs") (str_of "Technical") 5)
  = Done (Raise (KeyError (KStr (str_of "system_prompt"))))
  /\ ~ exists s,
         outcome_of (generate_summary
                       (Sample.world Scenario.template_no_system []
                          Sample.failing_response)
                       (str_of "Graphs") (str_of "Technical") 5)
         = Done (Return s).
Proof.
  split; [vm_compute; reflexivity|].
  intros [s Hs]. vm_compute in Hs. discriminate Hs.
Qed.

(** Against C2 as stated: with the placeholder [{topic}] in the format
    string, [generate_summary] returns no string; the [KeyError] leaves
    the function. *)
Lemma unsupplied_key_escapes :
  references_unsupplied (str_of "Summarize {text} on {topic} for {audience} in {length}") = true
  /\ outcome_of (generate_summary
                   (Sample.world Sample.template_topic [] Sample.stub_response)
                   (str_of "Graphs") (str_of "Technical") 5)
     = Done (Raise (KeyError (KStr (str_of "topic"))))
  /\ ~ exists s,
         outcome_of (generate_summary
                       (Sample.world Sample.template_topic [] Sample.stub_response)
                       (str_of "Graphs") (str_of "Technical") 5)
         = Done (Return s).
Proof.
  split; [reflexivity|]. split; [vm_compute; reflexivity|].
  intros [s Hs]. vm_compute in Hs. discriminate Hs.
Qed.

(** Against C5 as stated: a document with no page makes
    [extract_text_from_pdf] return the empty string, not raise. *)
Lemma empty_document_returns :
  PdfReader (Sample.world Sample.template [] Sample.stub_response) [] = Return []
  /\ outcome_of (extract_text_from_pdf
                   (Sample.world Sample.template [] Sample.stub_response) Sample.url)
     = Done (Return [])
  /\ ~ exists e,
         outcome_of (extract_text_from_pdf
                       (Sample.world Sample.template [] Sample.stub_response)
                       Sample.url)
         = Done (Raise e).
Proof.
  split; [reflexivity|]. split; [reflexivity|].
  intros [e He]. vm_compute in He. discriminate He.
Qed.

(** Against C9 as stated: a file that holds [{}] loads, although both
    fields are absent. *)
Lemma empty_object_loads :
  load_template Sample.disk_empty_object = Return (JObj ∅)
  /\ (∅ : gmap pystr json) !! str_of "system_prompt" = None
  /\ (∅ : gmap pystr json) !! str_of "prompt_template" = None
  /\ ~ exists e, load_template Sample.disk_empty_object = Raise e.
Proof.
  split; [reflexivity|]. split; [reflexivity|]. split; [reflexivity|].
  intros [e He]. discriminate He.
Qed.

(** Against C10 as stated: 3001 pages without text give 3000 newline
    characters, not 3001. *)
Lemma blank_pages_over_the_cap :
  exists s,
    outcome_of (extract_text_from_pdf
                  (Sample.world Sample.template (Sample.blank_pages 3001)
                     Sample.stub_response)
                  Sample.url)
    = Done (Return s)
    /\ length s = 3000%nat
    /\ s <> replicate 3001 newline.
Proof.
  exists (replicate 3000 newline).
  split; [vm_compute; reflexivity|]. split; [apply length_replicate|].
  intros H. apply (f_equal length) in H. rewrite !length_replicate in H.
  discriminate H.
Qed.

(** * Further properties of the script *)

(** ** Extraction: failures, lengths, pages that do not count *)

Lemma extract_shape W url :
  exists r, extract_text_from_pdf W url
            = ([Invoke_extract url; HttpGet url], Done r).
Proof.
  unfold extract_text_from_pdf, full_text, log, lift. cbn.
  destruct (requests_get W url) as [content|e]; cbn; [|eauto].
  destruct (PdfReader W content) as [pages|e]; cbn; [|eauto].
  destruct (page_loop pages []) as [text|e]; cbn; eauto.
Qed.

Lemma extract_at_most_3000 W url s :
  outcome_of (extract_text_from_pdf W url) = Done (Return s) ->
  (length s <= 3000)%nat.
Proof.
  unfold extract_text_from_pdf, full_text, log, lift. cbn.
  destruct (requests_get W url) as [content|e]; cbn; [|discriminate].
  destruct (PdfReader W content) as [pages|e]; cbn; [|discriminate].
  destruct (page_loop pages []) as [text|e]; cbn; [|discriminate].
  intros [= <-]. rewrite length_take. lia.
Qed.

Lemma page_loop_raise (front : list pystr) e back : forall acc,
  page_loop (map Return front ++ Raise e :: back) acc = Raise e.
Proof.
  induction front as [|t front IH]; intros acc; simpl; [reflexivity|apply IH].
Qed.

Lemma length_pages_text (texts : list pystr) :
  length (pages_text texts) = (list_sum (map length texts) + length texts)%nat.
Proof.
  unfold pages_text. induction texts as [|t texts IH]; simpl; [reflexivity|].
  rewrite !length_app, IH. simpl. lia.
Qed.

Lemma pages_text_app (front back : list pystr) :
  pages_text (front ++ back) = pages_text front ++ pages_text back.
Proof. unfold pages_text. rewrite map_app, concat_app. reflexivity. Qed.

Lemma extract_pages W url content (texts : list pystr) :
  requests_get W url = Return content ->
  PdfReader W content = Return (map Return texts) ->
  extract_text_from_pdf W url
  = ([Invoke_extract url; HttpGet url],
     Done (Return (take 3000 (pages_text texts)))).
Proof.
  intros Hget Hpdf. rewrite (extract_fetched _ _ _ _ Hget Hpdf).
  rewrite page_loop_texts. reflexivity.
Qed.

(** When the GET of line 29 raises, [extract_text_from_pdf] raises the same
    exception, and the button handler shows it as an error and finishes the
    run: no summary is asked for and no POST is made. *)
Theorem fetch_failure_is_displayed (W : World) (url : pystr) (a : AudienceLabel)
    (n : Z) (e : exn) :
  url <> [] ->
  requests_get W url = Raise e ->
  extract_text_from_pdf W url = ([Invoke_extract url; HttpGet url], Done (Raise e))
  /\ button_handler W url a n
     = ([SpinnerEnter (str_of "Downloading and processing paper...");
         Invoke_extract url;
         HttpGet url;
         StError (str_of "Error: " ++ describe W e);
         SpinnerExit],
        Done (Return tt)).
Proof.
  intros Hurl Hget.
  assert (Hext : extract_text_from_pdf W url
                 = ([Invoke_extract url; HttpGet url], Done (Raise e))).
  { unfold extract_text_from_pdf, full_text, log, lift. cbn.
    rewrite Hget. reflexivity. }
  split; [exact Hext|].
  apply (button_handler_extract_raises W url a n _ e Hurl Hext).
Qed.

(** One page whose [extract_text()] raises makes the whole extraction raise,
    whatever the pages before and after it hold, even when the pages before
    it already fill the 3000 characters; the button handler shows the
    error and asks for no summary. *)
Theorem page_failure_fails_extraction (W : World) (url : pystr) content
    (front : list pystr) (e : exn) (back : list (result pystr))
    (a : AudienceLabel) (n : Z) :
  url <> [] ->
  requests_get W url = Return content ->
  PdfReader W content = Return (map Return front ++ Raise e :: back) ->
  outcome_of (extract_text_from_pdf W url) = Done (Raise e)
  /\ button_handler W url a n
     = ([SpinnerEnter (str_of "Downloading and processing paper...");
         Invoke_extract url;
         HttpGet url;
         StError (str_of "Error: " ++ describe W e);
         SpinnerExit],
        Done (Return tt)).
Proof.
  intros Hurl Hget Hpdf.
  pose proof (extract_fetched _ _ _ _ Hget Hpdf) as Hext.
  rewrite page_loop_raise in Hext. cbn in Hext.
  split; [rewrite Hext; reflexivity|].
  apply (button_handler_extract_raises W url a n _ e Hurl Hext).
Qed.

(** The length of the extracted text is the smaller of 3000 and the sum of
    the page lengths plus one per page; when that sum does not exceed 3000
    the text of all pages is returned whole. *)
Theorem extracted_length (W : World) (url : pystr) content (texts : list pystr) :
  requests_get W url = Return content ->
  PdfReader W content = Return (map Return texts) ->
  exists s,
    outcome_of (extract_text_from_pdf W url) = Done (Return s)
    /\ length s = (3000 `min` (list_sum (map length texts) + length texts))%nat
    /\ ((list_sum (map length texts) + length texts <= 3000)%nat ->
        s = pages_text texts).
Proof.
  intros Hget Hpdf. rewrite (extract_pages _ _ _ _ Hget Hpdf).
  eexists. split; [reflexivity|]. split.
  - rewrite length_take, length_pages_text. reflexivity.
  - intros Hshort. apply take_ge. rewrite length_pages_text. exact Hshort.
Qed.

(** Once the first pages hold 3000 characters, the pages after them have
    no influence on the extracted text. *)
Theorem later_pages_are_cut (W : World) (url : pystr) content
    (front back : list pystr) :
  requests_get W url = Return content ->
  PdfReader W content = Return (map Return (front ++ back)) ->
  (3000 <= length (pages_text front))%nat ->
  outcome_of (extract_text_from_pdf W url)
  = Done (Return (take 3000 (pages_text front))).
Proof.
  intros Hget Hpdf Hfull. rewrite (extract_pages _ _ _ _ Hget Hpdf).
  rewrite pages_text_app, take_app_le by exact Hfull. reflexivity.
Qed.

(** With every page readable, the extracted text is empty exactly when the
    document has no page: one page is enough, whatever it holds, for the
    emptiness check of line 138 to pass. *)
Theorem extracted_text_empty_iff_no_page (W : World) (url : pystr) content
    (texts : list pystr) :
  requests_get W url = Return content ->
  PdfReader W content = Return (map Return texts) ->
  exists s,
    outcome_of (extract_text_from_pdf W url) = Done (Return s)
    /\ (s = [] <-> texts = []).
Proof.
  intros Hget Hpdf. rewrite (extract_pages _ _ _ _ Hget Hpdf).
  eexists. split; [reflexivity|]. split.
  - intros Hs. destruct texts as [|t texts]; [reflexivity|].
    apply (f_equal length) in Hs.
    rewrite length_take, length_pages_text in Hs.
    change (length (t :: texts)) with (S (length texts)) in Hs.
    change (length (@nil N)) with 0%nat in Hs. lia.
  - intros ->. reflexivity.
Qed.

(** ** The run as a whole *)

(** The four ways a run with a URL can go. *)
Lemma button_handler_cases W url a n :
  url <> [] ->
  (exists e,
     extract_text_from_pdf W url
     = ([Invoke_extract url; HttpGet url], Done (Raise e))
     /\ button_handler W url a n
        = ([SpinnerEnter (str_of "Downloading and processing paper...");
            Invoke_extract url; HttpGet url;
            StError (str_of "Error: " ++ describe W e); SpinnerExit],
           Done (Return tt)))
  \/ (extract_text_from_pdf W url
      = ([Invoke_extract url; HttpGet url], Done (Return []))
      /\ button_handler W url a n
         = ([SpinnerEnter (str_of "Downloading and processing paper...");
             Invoke_extract url; HttpGet url;
             StError extract_failed_msg; SpinnerExit],
            Stop))
  \/ (exists text t,
        text <> []
        /\ extract_text_from_pdf W url
           = ([Invoke_extract url; HttpGet url], Done (Return text))
        /\ (t = [] \/ exists headers data, t = [HttpPost GROQ_URL headers data])
        /\ ((exists s,
               generate_summary W text (label_str a) n
               = (Invoke_generate text (label_str a) n :: t, Done (Return s))
               /\ button_handler W url a n
                  = (SpinnerEnter (str_of "Downloading and processing paper...")
                       :: Invoke_extract url :: HttpGet url
                       :: SpinnerEnter (str_of "Generating summary (this may take 20-30 seconds)...")
                       :: Invoke_generate text (label_str a) n
                       :: t ++ [SpinnerExit;
                                StSuccess (str_of "Summary Generated!");
                                StSubheader (str_of "Research Summary");
                                StMarkdown (summary_html s) true;
                                SpinnerExit],
                     Done (Return tt)))
            \/ (exists e,
                  generate_summary W text (label_str a) n
                  = (Invoke_generate text (label_str a) n :: t, Done (Raise e))
                  /\ button_handler W url a n
                     = (SpinnerEnter (str_of "Downloading and processing paper...")
                          :: Invoke_extract url :: HttpGet url
                          :: SpinnerEnter (str_of "Generating summary (this may take 20-30 seconds)...")
                          :: Invoke_generate text (label_str a) n
                          :: t ++ [SpinnerExit;
                                   StError (str_of "Error: " ++ describe W e);
                                   SpinnerExit],
                        Done (Return tt))))).
Proof.
  intros Hurl. destruct (extract_shape W url) as [[text|e] Hext].
  - destruct text as [|c text].
    + right. left. split; [exact Hext|].
      apply (button_handler_empty_text W url a n _ Hurl Hext).
    + right. right. exists (c :: text).
      destruct (generate_summary_shape W (c :: text) (label_str a) n)
        as [t [r [Hgen Ht]]].
      exists t. split; [discriminate|]. split; [exact Hext|]. split; [exact Ht|].
      destruct r as [s|e].
      * left. exists s. split; [exact Hgen|].
        apply (button_handler_summary W url a n _ (c :: text) _ s Hurl
                 ltac:(discriminate) Hext Hgen).
      * right. exists e. split; [exact Hgen|].
        apply (button_handler_generate_raises W url a n _ (c :: text) _ e Hurl
                 ltac:(discriminate) Hext Hgen).
  - left. exists e. split; [exact Hext|].
    apply (button_handler_extract_raises W url a n _ e Hurl Hext).
Qed.

Lemma script_unfold W clicked url a n :
  script W clicked url a n
  = match (if clicked then button_handler W url a n else mret tt) with
    | (t, Done (Return _)) => (t ++ footer, Done (Return tt))
    | (t, Done (Raise e)) => (t, Done (Raise e))
    | (t, Stop) => (t, Stop)
    end.
Proof.
  unfold script.
  destruct (if clicked then button_handler W url a n else mret tt)
    as [t [[[]|e]|]]; reflexivity.
Qed.

(** A run makes at most two HTTP calls: the GET of the given URL, then at
    most one POST, to the completion endpoint; it makes none unless the
    button was pressed with a URL in the field. *)
Theorem run_network_calls (W : World) (clicked : bool) (url : pystr)
    (a : AudienceLabel) (n : Z) :
  (network_calls (trace_of (script W clicked url a n)) = []
   \/ network_calls (trace_of (script W clicked url a n)) = [HttpGet url]
   \/ exists headers data,
        network_calls (trace_of (script W clicked url a n))
        = [HttpGet url; HttpPost GROQ_URL headers data])
  /\ (network_calls (trace_of (script W clicked url a n)) <> [] ->
      clicked = true /\ url <> []).
Proof.
  rewrite script_unfold. destruct clicked; [|split; [left; reflexivity|intros H; contradiction]].
  destruct url as [|c url']; [split; [left; reflexivity|intros H; contradiction]|].
  set (url := c :: url').
  assert (Hurl : url <> []) by discriminate.
  split; [|intros _; split; [reflexivity|exact Hurl]].
  destruct (button_handler_cases W url a n Hurl)
    as [[e [_ ->]]|[[_ ->]|[text [t [_ [_ [Ht [[s [_ ->]]|[e [_ ->]]]]]]]]]];
    try (right; left; reflexivity);
    destruct Ht as [->|[headers [data ->]]];
    solve [right; left; reflexivity | right; right; eauto].
Qed.

Lemma button_handler_outcome W url a n :
  url <> [] ->
  exists th,
    (button_handler W url a n = (th, Stop)
     /\ outcome_of (extract_text_from_pdf W url) = Done (Return [])
     /\ forallb (fun ev => negb (is_markdown ev)) th = true)
    \/ (button_handler W url a n = (th, Done (Return tt))
        /\ outcome_of (extract_text_from_pdf W url) <> Done (Return [])).
Proof.
  intros Hurl.
  destruct (button_handler_cases W url a n Hurl)
    as [[e [Hext ->]]|[[Hext ->]|[text [t [Htext [Hext [Ht [[s [_ ->]]|[e [_ ->]]]]]]]]]];
    rewrite Hext; eexists.
  - right. split; [reflexivity|]. discriminate.
  - left. split; [reflexivity|]. split; reflexivity.
  - right. split; [reflexivity|]. intros [= ->]. contradiction.
  - right. split; [reflexivity|]. intros [= ->]. contradiction.
Qed.

(** From the button of line 131 to the end of the file (the template is
    loaded and the page is laid out before that), no exception gets out:
    lines 131-157 either reach the footer, or are stopped by [st.stop()]
    before it.  They are stopped exactly when the button was pressed with a
    URL and the extraction returned the empty string, and then none of the
    [st.markdown] calls of these lines, the result box and the footer, is
    made. *)
Theorem button_block_never_raises (W : World) (clicked : bool) (url : pystr)
    (a : AudienceLabel) (n : Z) :
  (forall e, outcome_of (script W clicked url a n) <> Done (Raise e))
  /\ (outcome_of (script W clicked url a n) = Stop
      <-> clicked = true /\ url <> []
          /\ outcome_of (extract_text_from_pdf W url) = Done (Return []))
  /\ (outcome_of (script W clicked url a n) = Done (Return tt) ->
      exists t, trace_of (script W clicked url a n) = t ++ footer)
  /\ (outcome_of (script W clicked url a n) = Stop ->
      forallb (fun ev => negb (is_markdown ev))
        (trace_of (script W clicked url a n)) = true).
Proof.
  rewrite script_unfold. destruct clicked.
  2:{ cbn. repeat split; try discriminate.
      - intros [H _]. discriminate H.
      - exists []. reflexivity. }
  destruct url as [|c url'].
  { cbn. repeat split; try discriminate.
    - intros [_ [H _]]. contradiction.
    - exists [StWarning warning_msg]. reflexivity. }
  set (url := c :: url').
  assert (Hurl : url <> []) by discriminate.
  destruct (button_handler_outcome W url a n Hurl)
    as [th [[-> [Hext Hmd]]|[-> Hext]]]; unfold trace_of, outcome_of, fst, snd.
  - repeat split; try discriminate; auto.
  - repeat split; try discriminate.
    + intros [_ [_ H]]. contradiction.
    + exists th. reflexivity.
Qed.

(** Every spinner that is entered is left, whichever way the run ends, and
    a run enters at most two. *)
Theorem spinners_are_balanced (W : World) (clicked : bool) (url : pystr)
    (a : AudienceLabel) (n : Z) :
  count_events is_spinner_enter (trace_of (script W clicked url a n))
  = count_events is_spinner_exit (trace_of (script W clicked url a n))
  /\ (count_events is_spinner_enter (trace_of (script W clicked url a n)) <= 2)%nat.
Proof.
  rewrite script_unfold. destruct clicked; [|split; [reflexivity|cbn; lia]].
  destruct url as [|c url']; [split; [reflexivity|cbn; lia]|].
  set (url := c :: url').
  assert (Hurl : url <> []) by discriminate.
  destruct (button_handler_cases W url a n Hurl)
    as [[e [_ ->]]|[[_ ->]|[text [t [_ [_ [Ht [[s [_ ->]]|[e [_ ->]]]]]]]]]];
    try (split; [reflexivity|cbn; lia]);
    destruct Ht as [->|[headers [data ->]]]; split; try reflexivity; cbn; lia.
Qed.

(** [generate_summary] is entered only with what the extraction returned: a
    text that is not empty and has at most 3000 characters, with the label
    and the length chosen on the page. *)
Theorem summary_is_asked_for_the_extracted_text (W : World) (url : pystr)
    (a : AudienceLabel) (n : Z) (text audience : pystr) (m : Z) :
  Invoke_generate text audience m ∈ trace_of (button_handler W url a n) ->
  outcome_of (extract_text_from_pdf W url) = Done (Return text)
  /\ text <> []
  /\ (length text <= 3000)%nat
  /\ audience = label_str a
  /\ m = n.
Proof.
  intros Hin. destruct url as [|c url'].
  { apply list_elem_of_singleton in Hin. discriminate Hin. }
  set (url := c :: url') in *.
  assert (Hurl : url <> []) by discriminate.
  assert (Hgoal : forall text', text' <> [] ->
            outcome_of (extract_text_from_pdf W url) = Done (Return text') ->
            Invoke_generate text audience m = Invoke_generate text' (label_str a) n ->
            outcome_of (extract_text_from_pdf W url) = Done (Return text)
            /\ text <> [] /\ (length text <= 3000)%nat
            /\ audience = label_str a /\ m = n).
  { intros text' Hne Hext [= -> -> ->].
    repeat split; auto. apply (extract_at_most_3000 _ _ _ Hext). }
  destruct (button_handler_cases W url a n Hurl)
    as [[e [_ Hh]]|[[_ Hh]|[text' [t [Hne [Hext [Ht [[s [_ Hh]]|[e [_ Hh]]]]]]]]]];
    rewrite Hh in Hin; unfold trace_of, fst in Hin.
  - repeat (apply elem_of_cons in Hin as [Hin|Hin]; [discriminate Hin|]).
    inversion Hin.
  - repeat (apply elem_of_cons in Hin as [Hin|Hin]; [discriminate Hin|]).
    inversion Hin.
  - do 4 (apply elem_of_cons in Hin as [Hin|Hin]; [discriminate Hin|]).
    apply elem_of_cons in Hin as [Hin|Hin].
    { apply (Hgoal text' Hne); [rewrite Hext; reflexivity|exact Hin]. }
    apply elem_of_app in Hin as [Hin|Hin].
    + destruct Ht as [->|[headers [data ->]]]; [inversion Hin|].
      apply list_elem_of_singleton in Hin. discriminate Hin.
    + repeat (apply elem_of_cons in Hin as [Hin|Hin]; [discriminate Hin|]).
      inversion Hin.
  - do 4 (apply elem_of_cons in Hin as [Hin|Hin]; [discriminate Hin|]).
    apply elem_of_cons in Hin as [Hin|Hin].
    { apply (Hgoal text' Hne); [rewrite Hext; reflexivity|exact Hin]. }
    apply elem_of_app in Hin as [Hin|Hin].
    + destruct Ht as [->|[headers [data ->]]]; [inversion Hin|].
      apply list_elem_of_singleton in Hin. discriminate Hin.
    + repeat (apply elem_of_cons in Hin as [Hin|Hin]; [discriminate Hin|]).
      inversion Hin.
Qed.

(** ** What comes back from the endpoint *)

Lemma py_lstrip_all_space (s : pystr) :
  forallb py_isspace s = true -> py_lstrip s = [].
Proof.
  induction s as [|c s IH]; simpl; [reflexivity|].
  intros H. apply andb_true_iff in H as [-> H]. apply IH, H.
Qed.

Lemma py_strip_all_space (s : pystr) :
  forallb py_isspace s = true -> py_strip s = [].
Proof. intros H. unfold py_strip. rewrite (py_lstrip_all_space _ H). reflexivity. Qed.

(** [generate_summary] when the endpoint answers and the status check
    passes. *)
Lemma generate_summary_answered W text audience n r body :
  valid_template (TEMPLATE W) = true ->
  (forall prompt data,
     build_prompt W text audience n = Return prompt ->
     request_data W prompt = Return data ->
     requests_post W GROQ_URL (request_headers W) data = Return r) ->
  raise_for_status r = None ->
  response_json r = Return body ->
  exists prompt data,
    build_prompt W text audience n = Return prompt
    /\ request_data W prompt = Return data
    /\ generate_summary W text audience n
       = ([Invoke_generate text audience n;
           HttpPost GROQ_URL (request_headers W) data],
          Done (Return match (v ← completion_content body; strip_method v) with
                       | Return s => s
                       | Raise e => error_prefix ++ describe W e
                       end)).
Proof.
  intros Hvalid Hpost Hstatus Hjson.
  destruct (valid_template_builds W text audience n Hvalid) as [prompt [data [Hp Hd]]].
  exists prompt, data. split; [exact Hp|]. split; [exact Hd|].
  rewrite (generate_summary_built _ _ _ _ _ _ Hp Hd).
  rewrite (guarded_call _ _ _ _ (completion_call_result _ _ _)).
  unfold completion_result. rewrite (Hpost _ _ Hp Hd). cbn.
  unfold check_status. rewrite Hstatus. cbn. rewrite Hjson. reflexivity.
Qed.

(** A completion whose content is empty or all whitespace comes back as the
    empty string, as a normal result: nothing marks it as a failure. *)
Theorem blank_completion_gives_empty_summary (W : World) (text audience : pystr)
    (n : Z) (r : Response) (body : json) (content : pystr) :
  valid_template (TEMPLATE W) = true ->
  (forall prompt data,
     build_prompt W text audience n = Return prompt ->
     request_data W prompt = Return data ->
     requests_post W GROQ_URL (request_headers W) data = Return r) ->
  raise_for_status r = None ->
  response_json r = Return body ->
  completion_content body = Return (JStr content) ->
  forallb py_isspace content = true ->
  outcome_of (generate_summary W text audience n) = Done (Return []).
Proof.
  intros Hvalid Hpost Hstatus Hjson Hcontent Hblank.
  destruct (generate_summary_answered _ _ _ _ _ _ Hvalid Hpost Hstatus Hjson)
    as [prompt [data [_ [_ ->]]]].
  rewrite Hcontent. cbn. rewrite (py_strip_all_space _ Hblank). reflexivity.
Qed.

(** The answers that do not have the expected shape, and the error string
    each one gives: a body that is not an object, an object without
    [choices], an empty [choices] list, a content that is not a string. *)
Theorem malformed_answers (W : World) (text audience : pystr) (n : Z)
    (r : Response) (body : json) :
  valid_template (TEMPLATE W) = true ->
  (forall prompt data,
     build_prompt W text audience n = Return prompt ->
     request_data W prompt = Return data ->
     requests_post W GROQ_URL (request_headers W) data = Return r) ->
  raise_for_status r = None ->
  response_json r = Return body ->
  ((forall o, body <> JObj o) ->
   outcome_of (generate_summary W text audience n)
   = Done (Return (error_prefix ++ describe W TypeError)))
  /\ (forall o, body = JObj o -> o !! str_of "choices" = None ->
        outcome_of (generate_summary W text audience n)
        = Done (Return (error_prefix
                          ++ describe W (KeyError (KStr (str_of "choices"))))))
  /\ (forall o, body = JObj o -> o !! str_of "choices" = Some (JArr []) ->
        outcome_of (generate_summary W text audience n)
        = Done (Return (error_prefix ++ describe W IndexError)))
  /\ (forall v, completion_content body = Return v -> (forall s, v <> JStr s) ->
        outcome_of (generate_summary W text audience n)
        = Done (Return (error_prefix ++ describe W AttributeError))).
Proof.
  intros Hvalid Hpost Hstatus Hjson.
  destruct (generate_summary_answered _ _ _ _ _ _ Hvalid Hpost Hstatus Hjson)
    as [prompt [data [_ [_ ->]]]].
  unfold outcome_of, snd. split; [|split; [|split]].
  - intros Hobj. destruct body; try reflexivity. exfalso. eapply Hobj. reflexivity.
  - intros o -> Hnone. unfold completion_content. cbn. rewrite Hnone. reflexivity.
  - intros o -> Hempty. unfold completion_content. cbn. rewrite Hempty. reflexivity.
  - intros v -> Hv. cbn. destruct v; try reflexivity. exfalso. eapply Hv. reflexivity.
Qed.

(** ** The request and the page after it *)

Lemma generate_summary_valid W text audience n :
  valid_template (TEMPLATE W) = true ->
  exists prompt data,
    build_prompt W text audience n = Return prompt
    /\ request_data W prompt = Return data
    /\ generate_summary W text audience n
       = ([Invoke_generate text audience n;
           HttpPost GROQ_URL (request_headers W) data],
          Done (Return match completion_result W (request_headers W) data with
                       | Return s => s
                       | Raise e => error_prefix ++ describe W e
                       end)).
Proof.
  intros Hvalid.
  destruct (valid_template_builds W text audience n Hvalid) as [prompt [data [Hp Hd]]].
  exists prompt, data. split; [exact Hp|]. split; [exact Hd|].
  rewrite (generate_summary_built _ _ _ _ _ _ Hp Hd).
  rewrite (guarded_call _ _ _ _ (completion_call_result _ _ _)). reflexivity.
Qed.

Lemma pages_text_not_empty (texts : list pystr) :
  texts <> [] -> take 3000 (pages_text texts) <> [].
Proof.
  intros Hne Hs. apply (f_equal length) in Hs.
  rewrite length_take, length_pages_text in Hs.
  destruct texts as [|t texts]; [contradiction|].
  change (length (t :: texts)) with (S (length texts)) in Hs.
  change (length (@nil N)) with 0%nat in Hs. lia.
Qed.

(** With the configured template, [generate_summary] makes exactly one POST,
    to the completion endpoint.  Its body names the model, and holds two
    messages and no third: the system prompt of the template, then the
    prompt that was built.  The bearer token is the API key, and reads
    [None] when the environment variable is not set. *)
Theorem request_carries_prompt (W : World) (text audience : pystr) (n : Z) :
  valid_template (TEMPLATE W) = true ->
  exists prompt sys data,
    build_prompt W text audience n = Return prompt
    /\ getitem (TEMPLATE W) (KStr (str_of "system_prompt")) = Return sys
    /\ trace_of (generate_summary W text audience n)
       = [Invoke_generate text audience n;
          HttpPost GROQ_URL (request_headers W) data]
    /\ request_headers W !! str_of "Authorization"
       = Some (str_of "Bearer " ++ match API_KEY W with
                                   | Some key => key
                                   | None => str_of "None"
                                   end)
    /\ getitem data (KStr (str_of "model")) = Return (JStr MODEL)
    /\ (m ← getitem data (KStr (str_of "messages"));
        u ← getitem m (KInt 0);
        getitem u (KStr (str_of "content"))) = Return sys
    /\ (m ← getitem data (KStr (str_of "messages"));
        u ← getitem m (KInt 1);
        getitem u (KStr (str_of "content"))) = Return (JStr prompt)
    /\ (m ← getitem data (KStr (str_of "messages"));
        getitem m (KInt 2)) = Raise IndexError.
Proof.
  intros Hvalid.
  destruct (generate_summary_valid W text audience n Hvalid)
    as [prompt [data [Hp [Hd ->]]]].
  unfold request_data in Hd.
  destruct (getitem (TEMPLATE W) (KStr (str_of "system_prompt"))) as [sys|e] eqn:Hsys;
    [|discriminate Hd].
  cbn in Hd. injection Hd as <-.
  exists prompt, sys. eexists. split; [exact Hp|]. split; [reflexivity|].
  split; [reflexivity|]. split.
  { unfold request_headers. rewrite lookup_insert_eq. reflexivity. }
  repeat split; vm_compute; reflexivity.
Qed.

(** A request that fails is rendered like a summary: the page shows
    "Summary Generated!" and the error string in the result box, and no
    error message. *)
Theorem failed_request_is_shown_as_summary (W : World) (url : pystr) content
    (texts : list pystr) (a : AudienceLabel) (n : Z) (e : exn) :
  valid_template (TEMPLATE W) = true ->
  url <> [] ->
  texts <> [] ->
  requests_get W url = Return content ->
  PdfReader W content = Return (map Return texts) ->
  (forall headers data, requests_post W GROQ_URL headers data = Raise e) ->
  exists data,
    button_handler W url a n
    = ([SpinnerEnter (str_of "Downloading and processing paper...");
        Invoke_extract url;
        HttpGet url;
        SpinnerEnter (str_of "Generating summary (this may take 20-30 seconds)...");
        Invoke_generate (take 3000 (pages_text texts)) (label_str a) n;
        HttpPost GROQ_URL (request_headers W) data;
        SpinnerExit;
        StSuccess (str_of "Summary Generated!");
        StSubheader (str_of "Research Summary");
        StMarkdown (summary_html (error_prefix ++ describe W e)) true;
        SpinnerExit],
       Done (Return tt)).
Proof.
  intros Hvalid Hurl Htexts Hget Hpdf Hpost.
  pose proof (extract_pages _ _ _ _ Hget Hpdf) as Hext.
  destruct (generate_summary_valid W (take 3000 (pages_text texts)) (label_str a) n
              Hvalid) as [prompt [data [_ [_ Hgen]]]].
  unfold completion_result in Hgen. rewrite Hpost in Hgen. cbn in Hgen.
  exists data.
  rewrite (button_handler_summary W url a n _ _ _ _ Hurl
             (pages_text_not_empty _ Htexts) Hext Hgen).
  reflexivity.
Qed.

(** The whole of a successful run, in order: the GET, the POST of the prompt
    built from the first 3000 characters of the pages, the success message,
    the stripped content in the result box, the footer. *)
Theorem successful_run (W : World) (url : pystr) content (texts : list pystr)
    (a : AudienceLabel) (n : Z) (r : Response) (body : json) (answer : pystr) :
  valid_template (TEMPLATE W) = true ->
  url <> [] ->
  texts <> [] ->
  requests_get W url = Return content ->
  PdfReader W content = Return (map Return texts) ->
  (forall headers data, requests_post W GROQ_URL headers data = Return r) ->
  raise_for_status r = None ->
  response_json r = Return body ->
  completion_content body = Return (JStr answer) ->
  exists prompt data,
    build_prompt W (take 3000 (pages_text texts)) (label_str a) n = Return prompt
    /\ request_data W prompt = Return data
    /\ script W true url a n
       = ([SpinnerEnter (str_of "Downloading and processing paper...");
           Invoke_extract url;
           HttpGet url;
           SpinnerEnter (str_of "Generating summary (this may take 20-30 seconds)...");
           Invoke_generate (take 3000 (pages_text texts)) (label_str a) n;
           HttpPost GROQ_URL (request_headers W) data;
           SpinnerExit;
           StSuccess (str_of "Summary Generated!");
           StSubheader (str_of "Research Summary");
           StMarkdown (summary_html (py_strip answer)) true;
           SpinnerExit] ++ footer,
          Done (Return tt)).
Proof.
  intros Hvalid Hurl Htexts Hget Hpdf Hpost Hstatus Hjson Hanswer.
  pose proof (extract_pages _ _ _ _ Hget Hpdf) as Hext.
  destruct (generate_summary_answered W (take 3000 (pages_text texts)) (label_str a) n
              r body Hvalid (fun _ _ _ _ => Hpost _ _) Hstatus Hjson)
    as [prompt [data [Hp [Hd Hgen]]]].
  rewrite Hanswer in Hgen. cbn in Hgen.
  exists prompt, data. split; [exact Hp|]. split; [exact Hd|].
  rewrite script_unfold.
  rewrite (button_handler_summary W url a n _ _ _ _ Hurl
             (pages_text_not_empty _ Htexts) Hext Hgen).
  reflexivity.
Qed.

(** ** Format strings: literal text, escapes, malformed fields *)

Lemma parse_escaped (s rest : pystr) :
  parse Text (escape_braces s ++ rest) = map Lit s ++ parse Text rest.
Proof.
  induction s as [|c s IH]; [reflexivity|].
  unfold escape_braces in *. simpl flat_map.
  destruct (is_brace c) eqn:Hc.
  - unfold is_brace in Hc. apply orb_true_iff in Hc as [Hc|Hc];
      apply N.eqb_eq in Hc; subst c; simpl; rewrite IH; reflexivity.
  - rewrite <- app_assoc.
    rewrite (parse_literal [c] _) by (simpl; rewrite Hc; reflexivity).
    rewrite IH. reflexivity.
Qed.

Lemma render_literal W kw (pre : pystr) items :
  render W kw (map Lit pre ++ items)
  = (s ← render W kw items; Return (pre ++ s)).
Proof.
  induction pre as [|c pre IH]; simpl.
  - destruct (render W kw items); reflexivity.
  - rewrite IH. destruct (render W kw items); reflexivity.
Qed.

Lemma parse_unclosed (name : pystr) : forall acc,
  forallb plain_char name = true -> parse (Name acc) name = [Malformed].
Proof.
  induction name as [|c name IH]; intros acc Hname; [reflexivity|].
  simpl in Hname. apply andb_true_iff in Hname as [Hc Hname].
  unfold plain_char in Hc.
  repeat (apply andb_true_iff in Hc as [Hc ?]).
  repeat match goal with
         | H : negb _ = true |- _ => apply negb_true_iff in H
         end.
  simpl. rewrite Hc, H, H0, H1, H2. apply IH, Hname.
Qed.

(** A format string without any brace is the prompt, whatever the text, the
    audience and the length: with such a template nothing of the paper is
    sent. *)
Theorem template_without_placeholder (W : World) (fmt text audience : pystr)
    (n : Z) :
  getitem (TEMPLATE W) (KStr (str_of "prompt_template")) = Return (JStr fmt) ->
  brace_free fmt = true ->
  build_prompt W text audience n = Return fmt.
Proof.
  intros Hfmt Hfree. rewrite (build_prompt_str _ _ _ _ _ Hfmt).
  rewrite <- (app_nil_r fmt) at 1. rewrite (parse_literal _ _ Hfree).
  rewrite render_literal. simpl. rewrite app_nil_r. reflexivity.
Qed.

(** Doubling the braces of a text gives a format string that formats back
    to the text: this is how a template shows a brace. *)
Theorem escaped_braces_round_trip (W : World) (s : pystr)
    (kwargs : gmap pystr pystr) :
  str_format W (escape_braces s) kwargs = Return s.
Proof.
  unfold str_format. rewrite <- (app_nil_r (escape_braces s)).
  rewrite parse_escaped, render_literal. simpl. rewrite app_nil_r. reflexivity.
Qed.

(** A format string whose first brace is a closing brace that is not
    doubled, or an opening brace whose field is never closed, makes
    [generate_summary] raise [ValueError] before any HTTP call. *)
Theorem stray_brace_raises (W : World) (fmt pre rest text audience : pystr)
    (n : Z) :
  getitem (TEMPLATE W) (KStr (str_of "prompt_template")) = Return (JStr fmt) ->
  brace_free pre = true ->
  (fmt = pre ++ rbrace :: rest /\ head rest <> Some rbrace)
  \/ (fmt = pre ++ lbrace :: rest /\ forallb plain_char rest = true) ->
  generate_summary W text audience n
  = ([Invoke_generate text audience n], Done (Raise ValueError)).
Proof.
  intros Hfmt Hfree Hcases.
  assert (Hparse : parse Text fmt = map Lit pre ++ [Malformed]).
  { destruct Hcases as [[-> Hrest]|[-> Hrest]]; rewrite (parse_literal _ _ Hfree);
      f_equal.
    - destruct rest as [|c rest]; [reflexivity|]. simpl.
      destruct (N.eqb_spec c rbrace) as [->|Hne]; [|reflexivity].
      exfalso. apply Hrest. reflexivity.
    - destruct rest as [|c rest]; [reflexivity|].
      pose proof (parse_unclosed (c :: rest) [] Hrest) as Hname.
      simpl in Hrest. apply andb_true_iff in Hrest as [Hc _].
      unfold plain_char in Hc. repeat (apply andb_true_iff in Hc as [Hc _]).
      apply negb_true_iff in Hc.
      change (parse Text (lbrace :: c :: rest))
        with (if c =? lbrace then Lit lbrace :: parse Text rest
              else parse (Name []) (c :: rest)).
      rewrite Hc. exact Hname. }
  unfold generate_summary, log, lift. cbn.
  rewrite (build_prompt_str _ _ _ _ _ Hfmt), Hparse, render_literal.
  reflexivity.
Qed.

(** ** What the prompt builder does not check *)

(** [generate_summary] checks neither the length nor the audience: with the
    three placeholders in the format string, any integer, negative ones
    included, and any audience string are substituted as they are. *)
Theorem any_length_and_audience_accepted (W : World) (fmt text audience : pystr)
    (n : Z) :
  getitem (TEMPLATE W) (KStr (str_of "prompt_template")) = Return (JStr fmt) ->
  exact_placeholders fmt = true ->
  exists prompt,
    build_prompt W text audience n = Return prompt
    /\ py_in audience prompt = true
    /\ py_in (py_str_int n ++ str_of " sentences") prompt = true
    /\ py_in text prompt = true.
Proof.
  intros Hfmt Hexact. unfold exact_placeholders in Hexact.
  apply andb_true_iff in Hexact as [Hexact Htext].
  apply andb_true_iff in Hexact as [Hexact Hlength].
  apply andb_true_iff in Hexact as [Hok Haudience].
  rewrite (build_prompt_str _ _ _ _ _ Hfmt).
  destruct (render_ok W (prompt_kwargs text audience n) (parse Text fmt)
              (kwargs_supplied _ _ _) Hok) as [prompt Hprompt].
  exists prompt. split; [exact Hprompt|].
  split; [|split].
  - destruct (render_contains W _ _ _ _ _ Hprompt Haudience eq_refl
                (kwargs_audience _ _ _)) as [pre [post ->]].
    apply py_in_app.
  - destruct (render_contains W _ _ _ _ _ Hprompt Hlength eq_refl
                (kwargs_length _ _ _)) as [pre [post ->]].
    apply py_in_app.
  - destruct (render_contains W _ _ _ _ _ Hprompt Htext eq_refl
                (kwargs_text _ _ _)) as [pre [post ->]].
    apply py_in_app.
Qed.

(** A template of the wrong type is found out at the first call only, and
    outside the [try]: a JSON value that is not an object makes
    [generate_summary] raise [TypeError], a [prompt_template] that is not a
    string makes it raise [AttributeError], in both cases before any HTTP
    call. *)
Theorem template_of_wrong_type_raises (W : World) (text audience : pystr) (n : Z) :
  ((forall o, TEMPLATE W <> JObj o) ->
   generate_summary W text audience n
   = ([Invoke_generate text audience n], Done (Raise TypeError)))
  /\ (forall o v,
        TEMPLATE W = JObj o ->
        o !! str_of "prompt_template" = Some v ->
        (forall s, v <> JStr s) ->
        generate_summary W text audience n
        = ([Invoke_generate text audience n], Done (Raise AttributeError))).
Proof.
  split.
  - intros Hobj. unfold generate_summary, build_prompt, log, lift.
    destruct (TEMPLATE W); try reflexivity. exfalso. eapply Hobj. reflexivity.
  - intros o v HT Hv Hstr. unfold generate_summary, build_prompt, log, lift.
    rewrite HT. cbn. rewrite Hv. cbn.
    destruct v; try reflexivity. exfalso. eapply Hstr. reflexivity.
Qed.

(** * The further properties on sample worlds *)

Lemma fetch_failure_is_displayed_witness :
  outcome_of (button_handler (Scenario.offline Sample.template) Sample.url Technical 5)
  = Done (Return tt)
  /\ StError (str_of "Error: connection refused")
     ∈ trace_of (button_handler (Scenario.offline Sample.template) Sample.url Technical 5).
Proof.
  destruct (fetch_failure_is_displayed (Scenario.offline Sample.template)
              Sample.url Technical 5 Scenario.refused
              ltac:(discriminate) eq_refl) as [_ ->].
  split; [reflexivity|]. do 3 apply list_elem_of_further. apply list_elem_of_here.
Defined.

Lemma page_failure_fails_extraction_witness :
  Scenario.damaged_pages
  = map Return [str_of "Page one"] ++ Raise Scenario.unreadable
      :: [Return (str_of "Page three")]
  /\ outcome_of (extract_text_from_pdf
                   (Sample.world Sample.template Scenario.damaged_pages
                      Sample.stub_response)
                   Sample.url)
     = Done (Raise Scenario.unreadable).
Proof.
  split; [reflexivity|].
  destruct (page_failure_fails_extraction
              (Sample.world Sample.template Scenario.damaged_pages Sample.stub_response)
              Sample.url [] [str_of "Page one"] Scenario.unreadable
              [Return (str_of "Page three")] Technical 5
              ltac:(discriminate) eq_refl eq_refl) as [Hext _].
  exact Hext.
Defined.

Lemma extracted_length_witness :
  exists s,
    outcome_of (extract_text_from_pdf
                  (Sample.world Sample.template Sample.two_pages Sample.stub_response)
                  Sample.url)
    = Done (Return s)
    /\ length s = 18%nat
    /\ s = pages_text [str_of "Page one"; str_of "Page two"].
Proof.
  destruct (extracted_length
              (Sample.world Sample.template Sample.two_pages Sample.stub_response)
              Sample.url [] [str_of "Page one"; str_of "Page two"]
              eq_refl eq_refl) as [s [Hs [Hlen Hshort]]].
  exists s. split; [exact Hs|]. split; [rewrite Hlen; reflexivity|].
  apply Hshort. vm_compute. lia.
Defined.

Lemma later_pages_are_cut_witness :
  (3000 <= length (pages_text [Sample.long_text]))%nat
  /\ outcome_of (extract_text_from_pdf
                   (Sample.world Sample.template
                      (map Return ([Sample.long_text] ++ [str_of "Appendix"]))
                      Sample.stub_response)
                   Sample.url)
     = Done (Return (replicate 3000 97)).
Proof.
  assert (Hfull : (3000 <= length (pages_text [Sample.long_text]))%nat)
    by (vm_compute; lia).
  split; [exact Hfull|].
  rewrite (later_pages_are_cut
             (Sample.world Sample.template
                (map Return ([Sample.long_text] ++ [str_of "Appendix"]))
                Sample.stub_response)
             Sample.url [] [Sample.long_text] [str_of "Appendix"]
             eq_refl eq_refl Hfull).
  vm_compute. reflexivity.
Defined.

Lemma extracted_text_empty_iff_no_page_witness :
  exists s,
    outcome_of (extract_text_from_pdf
                  (Sample.world Sample.template Sample.two_pages Sample.stub_response)
                  Sample.url)
    = Done (Return s)
    /\ s <> [].
Proof.
  destruct (extracted_text_empty_iff_no_page
              (Sample.world Sample.template Sample.two_pages Sample.stub_response)
              Sample.url [] [str_of "Page one"; str_of "Page two"]
              eq_refl eq_refl) as [s [Hs [Hempty _]]].
  exists s. split; [exact Hs|]. intros H. apply Hempty in H. discriminate H.
Defined.

Lemma run_network_calls_witness :
  network_calls
    (trace_of (script (Sample.world Sample.template Sample.two_pages Sample.stub_response)
                 true Sample.url Technical 5))
  <> []
  /\ true = true /\ Sample.url <> [].
Proof.
  assert (Hcalls : network_calls
            (trace_of (script (Sample.world Sample.template Sample.two_pages
                                 Sample.stub_response)
                         true Sample.url Technical 5)) <> [])
    by (vm_compute; discriminate).
  split; [exact Hcalls|].
  destruct (run_network_calls
              (Sample.world Sample.template Sample.two_pages Sample.stub_response)
              true Sample.url Technical 5) as [_ Hwhen].
  exact (Hwhen Hcalls).
Defined.

Lemma button_block_never_raises_witness :
  outcome_of (script (Sample.world Sample.template [] Sample.stub_response)
                true Sample.url Technical 5)
  = Stop.
Proof.
  destruct (button_block_never_raises
              (Sample.world Sample.template [] Sample.stub_response)
              true Sample.url Technical 5) as [_ [Hstop _]].
  apply Hstop. split; [reflexivity|]. split; [discriminate|reflexivity].
Defined.

Lemma summary_is_asked_for_the_extracted_text_witness :
  outcome_of (extract_text_from_pdf
                (Sample.world Sample.template Sample.two_pages Sample.stub_response)
                Sample.url)
  = Done (Return (pages_text [str_of "Page one"; str_of "Page two"])).
Proof.
  assert (Hin : Invoke_generate (pages_text [str_of "Page one"; str_of "Page two"])
                  (str_of "Technical") 5
                ∈ trace_of (button_handler
                              (Sample.world Sample.template Sample.two_pages
                                 Sample.stub_response)
                              Sample.url Technical 5)).
  { vm_compute. do 4 apply list_elem_of_further. apply list_elem_of_here. }
  destruct (summary_is_asked_for_the_extracted_text _ _ _ _ _ _ _ Hin) as [Hext _].
  exact Hext.
Defined.

Lemma blank_completion_gives_empty_summary_witness :
  outcome_of (generate_summary
                (Scenario.answering Sample.template []
                   (Scenario.body_with_content (JStr [32; 10; 32])))
                (str_of "Graphs") (str_of "Technical") 5)
  = Done (Return []).
Proof.
  apply (blank_completion_gives_empty_summary
           (Scenario.answering Sample.template []
              (Scenario.body_with_content (JStr [32; 10; 32])))
           (str_of "Graphs") (str_of "Technical") 5
           {| raise_for_status := None;
              response_json := Return (Scenario.body_with_content (JStr [32; 10; 32])) |}
           (Scenario.body_with_content (JStr [32; 10; 32])) [32; 10; 32]
           eq_refl (fun _ _ _ _ => eq_refl) eq_refl eq_refl eq_refl eq_refl).
Defined.

Lemma malformed_answers_witness :
  outcome_of (generate_summary
                (Scenario.answering Sample.template [] (JObj ∅))
                (str_of "Graphs") (str_of "Technical") 5)
  = Done (Return (error_prefix ++ str_of "'choices'")).
Proof.
  destruct (malformed_answers
              (Scenario.answering Sample.template [] (JObj ∅))
              (str_of "Graphs") (str_of "Technical") 5
              {| raise_for_status := None; response_json := Return (JObj ∅) |}
              (JObj ∅)
              eq_refl (fun _ _ _ _ => eq_refl) eq_refl eq_refl)
    as [_ [Hmissing _]].
  rewrite (Hmissing ∅ eq_refl eq_refl). reflexivity.
Defined.

Lemma request_carries_prompt_witness :
  request_headers (Scenario.offline Sample.template) !! str_of "Authorization"
  = Some (str_of "Bearer None").
Proof.
  destruct (request_carries_prompt (Scenario.offline Sample.template)
              (str_of "Graphs") (str_of "Technical") 5 eq_refl)
    as [prompt [sys [data [_ [_ [_ [Hauth _]]]]]]].
  exact Hauth.
Defined.

Lemma failed_request_is_shown_as_summary_witness :
  StSuccess (str_of "Summary Generated!")
  ∈ trace_of (button_handler
                (Scenario.endpoint_down Sample.template Sample.two_pages)
                Sample.url Technical 5)
  /\ StMarkdown (summary_html (error_prefix ++ str_of "connection refused")) true
     ∈ trace_of (button_handler
                   (Scenario.endpoint_down Sample.template Sample.two_pages)
                   Sample.url Technical 5).
Proof.
  destruct (failed_request_is_shown_as_summary
              (Scenario.endpoint_down Sample.template Sample.two_pages)
              Sample.url [] [str_of "Page one"; str_of "Page two"] Technical 5
              Scenario.refused
              eq_refl ltac:(discriminate) ltac:(discriminate) eq_refl eq_refl
              (fun _ _ => eq_refl)) as [data ->].
  split.
  - do 7 apply list_elem_of_further. apply list_elem_of_here.
  - do 9 apply list_elem_of_further. apply list_elem_of_here.
Defined.

Lemma successful_run_witness :
  outcome_of (script (Sample.world Sample.template Sample.two_pages Sample.stub_response)
                true Sample.url Technical 5)
  = Done (Return tt)
  /\ StMarkdown (summary_html (str_of "Hello world.")) true
     ∈ trace_of (script (Sample.world Sample.template Sample.two_pages
                           Sample.stub_response)
                   true Sample.url Technical 5).
Proof.
  destruct (successful_run
              (Sample.world Sample.template Sample.two_pages Sample.stub_response)
              Sample.url [] [str_of "Page one"; str_of "Page two"] Technical 5
              Sample.stub_response Sample.stub_body (str_of " Hello world. ")
              eq_refl ltac:(discriminate) ltac:(discriminate) eq_refl eq_refl
              (fun _ _ => eq_refl) eq_refl eq_refl eq_refl)
    as [prompt [data [_ [_ ->]]]].
  split; [reflexivity|].
  do 9 apply list_elem_of_further. apply list_elem_of_here.
Defined.

Lemma template_without_placeholder_witness :
  build_prompt
    (Sample.world (Scenario.template_of (str_of "Summarize the paper.")) []
       Sample.stub_response)
    (str_of "Graphs") (str_of "Technical") 5
  = Return (str_of "Summarize the paper.").
Proof.
  apply (template_without_placeholder
           (Sample.world (Scenario.template_of (str_of "Summarize the paper.")) []
              Sample.stub_response)
           (str_of "Summarize the paper.") (str_of "Graphs") (str_of "Technical") 5
           eq_refl eq_refl).
Defined.

Lemma stray_brace_raises_witness :
  generate_summary
    (Sample.world (Scenario.template_of (str_of "Summarize {text")) []
       Sample.stub_response)
    (str_of "Graphs") (str_of "Technical") 5
  = ([Invoke_generate (str_of "Graphs") (str_of "Technical") 5],
     Done (Raise ValueError)).
Proof.
  apply (stray_brace_raises
           (Sample.world (Scenario.template_of (str_of "Summarize {text")) []
              Sample.stub_response)
           (str_of "Summarize {text") (str_of "Summarize ") (str_of "text")
           (str_of "Graphs") (str_of "Technical") 5 eq_refl eq_refl).
  right. split; reflexivity.
Defined.

Lemma any_length_and_audience_accepted_witness :
  exists prompt,
    build_prompt (Sample.world Sample.template [] Sample.stub_response)
      (str_of "Graphs") (str_of "Pirate") (-1) = Return prompt
    /\ py_in (str_of "Pirate") prompt = true
    /\ py_in (str_of "-1 sentences") prompt = true.
Proof.
  destruct (any_length_and_audience_accepted
              (Sample.world Sample.template [] Sample.stub_response)
              (str_of "Summarize for a {audience} reader in {length}: {text}")
              (str_of "Graphs") (str_of "Pirate") (-1) eq_refl eq_refl)
    as [prompt [Hp [Ha [Hl _]]]].
  exists prompt. split; [exact Hp|]. split; [exact Ha|exact Hl].
Defined.

Lemma template_of_wrong_type_raises_witness :
  generate_summary (Sample.world (JArr []) [] Sample.stub_response)
    (str_of "Graphs") (str_of "Technical") 5
  = ([Invoke_generate (str_of "Graphs") (str_of "Technical") 5],
     Done (Raise TypeError)).
Proof.
  destruct (template_of_wrong_type_raises
              (Sample.world (JArr []) [] Sample.stub_response)
              (str_of "Graphs") (str_of "Technical") 5) as [Hnot_object _].
  apply Hnot_object. intros o H. discriminate H.
Defined.
